(** * Launcher registrations for portable application bundles

    A shallow embedding of [main.py]: the registry kept by
    [DesktopEntryManager] (a JSON document rewritten on every change) and
    the two orchestration methods of [Application] that create and delete
    launcher descriptor files.

    The program is a sequence of file-system calls around a Python list,
    so the embedding is a state-and-exception monad over a [machine]: the
    files on disk, the program's two mutable objects ([self.manager.state]
    and the rows of [self.tree]) and the trace of everything the program
    did that can be seen from outside (system calls, lines printed, message
    boxes shown).  What the user answers in the dialogs and what the clock
    shows are arguments of the methods; whether a system call succeeds is
    decided by an oracle that is part of the machine.  Python's [json]
    module is an interface with the one law the program relies on, and
    [PyJson] is an implementation of it.

    The file has the definitions first (Python values, the machine, the
    program, the codec, the vocabulary of the statements), then the
    proofs: the codec's round trip, the registry, creation, deletion, and
    sequences of registry calls. *)

From Stdlib Require Import String Ascii ZArith List Lia Bool.
From Stdlib Require Import Decimal DecimalString DecimalZ.
From stdpp Require Import base option list gmap strings.

Local Open Scope string_scope.
Local Open Scope Z_scope.
Set Warnings "-register-all".

(* Let [simpl] compute string concatenation on literals. *)
#[local] Arguments String.append !_ _ / : simpl nomatch.

(** ** Python values

    [self.state] holds whatever [json.load] produced, so it is a JSON
    value and not necessarily a list of records.  Numbers are integers;
    Python's [None] is [JNull]; a [dict] keeps its insertion order and is
    an association list whose keys are pairwise distinct ([wf_json]).
    Characters are the 8-bit code points of [ascii]. *)

Inductive json : Type :=
| JNull
| JBool (b : bool)
| JInt (z : Z)
| JStr (s : string)
| JArr (items : list json)
| JObj (members : list (string * json)).

(** The exceptions the modelled code can meet. *)
Inductive exn : Type :=
| OSError
| ValueError
| TypeError
| AttributeError
| IndexError
| KeyError
| OverflowError.

Inductive res (A : Type) : Type :=
| Ret (a : A)
| Raise (e : exn).
Arguments Ret {A} a.
Arguments Raise {A} e.

Fixpoint assoc (k : string) (kv : list (string * json)) : option json :=
  match kv with
  | [] => None
  | (k', v) :: kv' => if String.eqb k k' then Some v else assoc k kv'
  end.

Fixpoint distinct (ks : list string) : bool :=
  match ks with
  | [] => true
  | k :: ks' => negb (existsb (String.eqb k) ks') && distinct ks'
  end.

(** A value Python can hold: no dictionary has a key twice. *)
Fixpoint wf_json (v : json) : bool :=
  match v with
  | JArr items => forallb wf_json items
  | JObj members =>
      distinct (map fst members)
      && forallb (fun kv => wf_json (snd kv)) members
  | _ => true
  end.

Module Py.

(** [len(x)] *)
Definition len (x : json) : res Z :=
  match x with
  | JArr items => Ret (Z.of_nat (length items))
  | JObj members => Ret (Z.of_nat (length members))
  | JStr s => Ret (Z.of_nat (String.length s))
  | _ => Raise TypeError
  end.

(** [l[i]] on a list: a negative index counts from the end. *)
Definition list_getitem {A} (l : list A) (i : Z) : res A :=
  let n := Z.of_nat (length l) in
  let j := if i <? 0 then i + n else i in
  if (j <? 0) || (n <=? j) then Raise IndexError
  else match l !! Z.to_nat j with
       | Some x => Ret x
       | None => Raise IndexError
       end.

(** [x[i]] for an integer [i].  The keys of a dictionary read from JSON
    are strings, so an integer is never among them. *)
Definition getitem (x : json) (i : Z) : res json :=
  match x with
  | JArr items => list_getitem items i
  | JStr s =>
      match list_getitem (list_ascii_of_string s) i with
      | Ret c => Ret (JStr (String c EmptyString))
      | Raise e => Raise e
      end
  | JObj _ => Raise KeyError
  | _ => Raise TypeError
  end.

(** [x.get(key, default)] *)
Definition get (x : json) (key : string) (default : json) : res json :=
  match x with
  | JObj members => Ret (from_option id default (assoc key members))
  | _ => Raise AttributeError
  end.

(** The items [for entry in x] goes through. *)
Definition iter (x : json) : res (list json) :=
  match x with
  | JArr items => Ret items
  | JObj members => Ret (map (fun kv => JStr (fst kv)) members)
  | JStr s =>
      Ret (map (fun c => JStr (String c EmptyString)) (list_ascii_of_string s))
  | _ => Raise TypeError
  end.

(** [not x] for the optional strings the dialogs return. *)
Definition falsy (x : option string) : bool :=
  match x with
  | None => true
  | Some s => String.eqb s ""
  end.

(** [str(n)] for an integer. *)
Definition str_of_int (n : Z) : string := NilZero.string_of_int (Z.to_int n).

(** [s.replace(a, b)] for single characters. *)
Fixpoint replace (a b : ascii) (s : string) : string :=
  match s with
  | EmptyString => EmptyString
  | String c s' => String (if Ascii.eqb c a then b else c) (replace a b s')
  end.

Definition newline : ascii := ascii_of_nat 10.

(** The double quote, as a character and as a string. *)
Definition dquote : ascii := ascii_of_nat 34.
Definition dq : string := String dquote EmptyString.

(** [s.split('\n')] *)
Fixpoint split_lines (s : string) : list string :=
  match s with
  | EmptyString => [EmptyString]
  | String c s' =>
      if Ascii.eqb c newline then EmptyString :: split_lines s'
      else match split_lines s' with
           | l :: ls => String c l :: ls
           | [] => [String c EmptyString]
           end
  end.

(** ['\n' in s] *)
Fixpoint has_newline (s : string) : bool :=
  match s with
  | EmptyString => false
  | String c s' => Ascii.eqb c newline || has_newline s'
  end.

End Py.

(** ** The machine

    What the program runs on and what it owns.  Every system call that
    can fail asks the [oracle] for its [verdict] first (an oracle that has
    run out lets every call pass), so that a run is deterministic once
    the environment's decisions are fixed, and every failure the operating
    system can produce is some oracle. *)

Inductive verdict : Type :=
| Pass                 (* the call succeeds *)
| Deny                 (* the call fails before it changes anything *)
| Partial (n : nat).   (* a write fails after [n] characters reached the
                          file; any other call just fails *)

Inductive event : Type :=
| EvRead (path : string) (ok : bool)
| EvWrite (path : string) (ok : bool)
| EvChmod (path : string) (mode : Z) (ok : bool)
| EvRemove (path : string) (ok : bool)
| EvPrint (msg : string) (cause : option exn)
| EvShowError (msg : string) (cause : option exn)
| EvShowWarning (msg : string)
| EvShowInfo (msg : string).

Record machine : Type := Machine {
  files : gmap string string;     (* path -> text of the file *)
  modes : gmap string Z;          (* path -> permission bits set by chmod *)
  fds : gset Z;                   (* open file descriptors of the process *)
  oracle : list verdict;          (* verdicts of the system calls to come *)
  trace : list event;             (* what has happened, oldest first *)
  state : json;                   (* self.manager.state *)
  tree : list (json * json)       (* the rows of self.tree *)
}.

Definition with_files (f : gmap string string) (m : machine) : machine :=
  Machine f (modes m) (fds m) (oracle m) (trace m) (state m) (tree m).
Definition with_modes (p : gmap string Z) (m : machine) : machine :=
  Machine (files m) p (fds m) (oracle m) (trace m) (state m) (tree m).
Definition with_oracle (o : list verdict) (m : machine) : machine :=
  Machine (files m) (modes m) (fds m) o (trace m) (state m) (tree m).
Definition with_trace (t : list event) (m : machine) : machine :=
  Machine (files m) (modes m) (fds m) (oracle m) t (state m) (tree m).
Definition with_state (v : json) (m : machine) : machine :=
  Machine (files m) (modes m) (fds m) (oracle m) (trace m) v (tree m).
Definition with_tree (t : list (json * json)) (m : machine) : machine :=
  Machine (files m) (modes m) (fds m) (oracle m) (trace m) (state m) t.

(** A Python statement: it runs on a machine, leaves a machine, and
    either returns or raises. *)
Definition M (A : Type) : Type := machine -> res A * machine.

Definition ret {A} (a : A) : M A := fun m => (Ret a, m).
Definition raise {A} (e : exn) : M A := fun m => (Raise e, m).
Definition bind {A B} (c : M A) (k : A -> M B) : M B :=
  fun m => match c m with
           | (Ret a, m') => k a m'
           | (Raise e, m') => (Raise e, m')
           end.
Definition lift {A} (r : res A) : M A := fun m => (r, m).
Definition gets {A} (f : machine -> A) : M A := fun m => (Ret (f m), m).
Definition modify (f : machine -> machine) : M unit := fun m => (Ret tt, f m).

(** [try: body / except Exception as e: handler e], then whatever follows. *)
Definition try_except {A} (body : M A) (handler : exn -> M A) : M A :=
  fun m => match body m with
           | (Ret a, m') => (Ret a, m')
           | (Raise e, m') => handler e m'
           end.

(** [try: body / except Exception as e: handler e; return], followed by
    [rest] when the body went through. *)
Definition try_or_return {A} (body : M unit) (handler : exn -> M A) (rest : M A)
  : M A :=
  fun m => match body m with
           | (Ret _, m') => rest m'
           | (Raise e, m') => handler e m'
           end.

Global Instance M_ret : MRet M := @ret.
Global Instance M_bind : MBind M := fun A B k c => bind c k.

Definition log (e : event) : M unit :=
  modify (fun m => with_trace (trace m ++ [e]) m).

Definition next_verdict : M verdict :=
  fun m => (Ret (hd Pass (oracle m)), with_oracle (tl (oracle m)) m).

Module OS.

(** [with open(path, 'r') as f: f.read()] *)
Definition read_file (path : string) : M string :=
  v ← next_verdict;
  fs ← gets files;
  match v, fs !! path with
  | Pass, Some text => log (EvRead path true);; ret text
  | _, _ => log (EvRead path false);; raise OSError
  end.

(** [with open(path, 'w') as f: f.write(text)]: the file is created or
    truncated when it is opened, and holds [text] when all went well. *)
Definition write_file (path text : string) : M unit :=
  v ← next_verdict;
  match v with
  | Pass =>
      modify (fun m => with_files (<[path := text]> (files m)) m);;
      log (EvWrite path true)
  | Deny => log (EvWrite path false);; raise OSError
  | Partial n =>
      modify (fun m => with_files
                (<[path := String.substring 0 n text]> (files m)) m);;
      log (EvWrite path false);; raise OSError
  end.

(** [os.chmod(path, mode)] *)
Definition chmod (path : string) (mode : Z) : M unit :=
  v ← next_verdict;
  fs ← gets files;
  match v, fs !! path with
  | Pass, Some _ =>
      modify (fun m => with_modes (<[path := mode]> (modes m)) m);;
      log (EvChmod path mode true)
  | _, _ => log (EvChmod path mode false);; raise OSError
  end.

(** [os.path.exists(x)]: a string names a file; an integer names a file
    descriptor, which must fit a C [int]; anything else is a
    [TypeError].  Failures of [stat] itself read as "does not exist". *)
Definition path_exists (x : json) : M bool :=
  match x with
  | JStr path => fs ← gets files; ret (bool_decide (is_Some (fs !! path)))
  | JInt n =>
      if (n <? -2147483648) || (2147483647 <? n) then raise OverflowError
      else open ← gets fds; ret (bool_decide (n ∈ open))
  | JBool b =>
      open ← gets fds; ret (bool_decide ((if b then 1 else 0) ∈ open))
  | _ => raise TypeError
  end.

(** [os.remove(x)]: only a path can be removed. *)
Definition remove (x : json) : M unit :=
  match x with
  | JStr path =>
      v ← next_verdict;
      fs ← gets files;
      match v, fs !! path with
      | Pass, Some _ =>
          modify (fun m => with_files (delete path (files m)) m);;
          log (EvRemove path true)
      | _, _ => log (EvRemove path false);; raise OSError
      end
  | _ => raise TypeError
  end.

(** [os.path.join(a, b)] *)
Definition path_join (a b : string) : string :=
  if String.prefix "/" b then b
  else if String.eqb a "" then b
  else if String.eqb (String.substring (String.length a - 1) 1 a) "/"
       then a ++ b
       else a ++ "/" ++ b.

Definition print (msg : string) (cause : option exn) : M unit :=
  log (EvPrint msg cause).

End OS.

Module messagebox.
Definition showerror (msg : string) (cause : option exn) : M unit :=
  log (EvShowError msg cause).
Definition showwarning (msg : string) : M unit := log (EvShowWarning msg).
Definition showinfo (msg : string) : M unit := log (EvShowInfo msg).
End messagebox.

(** ** The [json] module

    [json.dumps(v, indent=4)] and [json.loads(text)], the latter [None]
    where Python raises.  The program only calls them, so they are an
    interface here; [PyJson] below implements it. *)
Class JsonCodec : Type := {
  json_dumps : json -> string;
  json_loads : string -> option json
}.

(** What the program relies on: a document written by [json.dump] reads
    back as the value that was written. *)
Class JsonRoundTrip (codec : JsonCodec) : Prop :=
  loads_dumps : forall v : json, wf_json v = true -> json_loads (json_dumps v) = Some v.

(** ** [DesktopEntryManager] *)

Definition STATE_FILE : string := "state.json".

Module DesktopEntryManager.
Section Manager.
Context `{codec : JsonCodec}.

(** [json.load(f)]: read the whole file, then decode it. *)
Definition json_load (path : string) : M json :=
  text ← OS.read_file path;
  match json_loads text with
  | Some v => mret v
  | None => raise ValueError
  end.

Definition set_state (v : json) : M unit := modify (with_state v).

Definition load_state : M unit :=
  there ← OS.path_exists (JStr STATE_FILE);
  if there : bool then
    try_except
      (v ← json_load STATE_FILE; set_state v)
      (fun e => OS.print "Error loading state" (Some e);; set_state (JArr []))
  else set_state (JArr []).

Definition save_state : M unit :=
  try_except
    (v ← gets state; OS.write_file STATE_FILE (json_dumps v))
    (fun e => OS.print "Error saving state" (Some e)).

(** [self.state.append(entry)]: only a list has [append]. *)
Definition state_append (entry : json) : M unit :=
  v ← gets state;
  match v with
  | JArr items => set_state (JArr (items ++ [entry]))
  | _ => raise AttributeError
  end.

(** [self.state.pop(index)] for [0 <= index < len(self.state)]: a list
    gives up the item, a dictionary has no integer key, a string has no
    [pop]. *)
Definition state_pop (index : Z) : M json :=
  v ← gets state;
  match v with
  | JArr items =>
      match items !! Z.to_nat index with
      | Some entry =>
          set_state (JArr (delete (Z.to_nat index) items));; mret entry
      | None => raise IndexError
      end
  | JObj _ => raise KeyError
  | _ => raise AttributeError
  end.

Definition add_entry (entry : json) : M unit :=
  state_append entry;;
  save_state.

(** [0 <= index < len(self.state)] looks at the length only when
    [0 <= index] holds; [None] is returned as [JNull]. *)
Definition remove_entry (index : Z) : M json :=
  if 0 <=? index then
    v ← gets state;
    n ← lift (Py.len v);
    if index <? n then
      entry ← state_pop index;
      save_state;;
      mret entry
    else mret JNull
  else mret JNull.

(** [__init__] *)
Definition init : M unit :=
  set_state (JArr []);;
  load_state.

End Manager.
End DesktopEntryManager.

(** ** [Application] *)

Module Application.
Section App.
Context `{codec : JsonCodec}.

(** The user's home directory as [os.path.expanduser] puts it in place
    of the tilde. *)
Variable userhome : string.

Definition DESKTOP_ENTRY_DIR : string := userhome ++ "/.local/share/applications".

Definition tree_insert (row : json * json) : M unit :=
  modify (fun m => with_tree (tree m ++ [row]) m).

Fixpoint for_each {A} (body : A -> M unit) (xs : list A) : M unit :=
  match xs with
  | [] => mret tt
  | x :: xs' => body x;; for_each body xs'
  end.

Definition refresh_list : M unit :=
  modify (with_tree []);;
  v ← gets state;
  entries ← lift (Py.iter v);
  for_each (fun entry =>
              name ← lift (Py.get entry "app_name" (JStr "Unnamed"));
              file ← lift (Py.get entry "desktop_file" (JStr ""));
              tree_insert (name, file))
           entries.

(** [__init__], as far as the registry and the list view go. *)
Definition init : M unit :=
  DesktopEntryManager.init;;
  refresh_list.

(** What the dialogs of [create_desktop_entry] answer and what the
    clock shows: the two file choosers return the empty string when
    they are cancelled, the two prompts return [None]. *)
Record answers : Type := Answers {
  appimage_path : string;
  app_name : option string;
  wm_class : option string;
  icon_path : string;
  timestamp : Z                  (* int(time.time()) *)
}.

Definition resolve_wm_class (wm : option string) (name : string) : string :=
  if Py.falsy wm then name else default name wm.

Definition desktop_filename (name : string) (ts : Z) : string :=
  Py.replace " " "_" name ++ "_" ++ Py.str_of_int ts ++ ".desktop".

Definition desktop_path (name : string) (ts : Z) : string :=
  OS.path_join DESKTOP_ENTRY_DIR (desktop_filename name ts).

Definition nl : string := String Py.newline EmptyString.

Definition desktop_content (name path icon wm : string) : string :=
  "[Desktop Entry]" ++ nl ++ "Version=1.0" ++ nl ++ "Type=Application" ++ nl
  ++ "Name=" ++ name ++ nl
  ++ "Exec=" ++ Py.dq ++ path ++ Py.dq ++ nl
  ++ "Icon=" ++ icon ++ nl
  ++ "StartupWMClass=" ++ wm ++ nl
  ++ "Terminal=false" ++ nl
  ++ "Categories=Utility;".

Definition new_entry (name path file : string) : json :=
  JObj [("app_name", JStr name);
        ("appimage_path", JStr path);
        ("desktop_file", JStr file)].

Definition create_desktop_entry (a : answers) : M unit :=
  if String.eqb (appimage_path a) "" then mret tt
  else if Py.falsy (app_name a) then
    messagebox.showerror "Application name cannot be empty." None
  else
    let name := default "" (app_name a) in
    let wm := resolve_wm_class (wm_class a) name in
    let desktop_file_path := desktop_path name (timestamp a) in
    let content := desktop_content name (appimage_path a) (icon_path a) wm in
    try_or_return
      (OS.write_file desktop_file_path content;;
       OS.chmod desktop_file_path 493)
      (fun e => messagebox.showerror "Failed to create desktop entry" (Some e))
      (DesktopEntryManager.add_entry
         (new_entry name (appimage_path a) desktop_file_path);;
       refresh_list;;
       messagebox.showinfo ("Desktop entry created: " ++ desktop_file_path)).

(** [selected] is what [self.tree.selection()] leads to: nothing, or
    the position [self.tree.index(selected[0])] of the chosen row;
    [confirmed] is the answer to the yes/no question. *)
Definition delete_entry (selected : option Z) (confirmed : bool) : M unit :=
  match selected with
  | None => messagebox.showwarning "Please select an entry to delete."
  | Some index =>
      v ← gets state;
      entry ← lift (Py.getitem v index);
      desktop_file ← lift (Py.get entry "desktop_file" JNull);
      _ ← lift (Py.get entry "app_name" (JStr "Unnamed"));
      if confirmed then
        try_or_return
          (there ← OS.path_exists desktop_file;
           if there : bool then OS.remove desktop_file else mret tt)
          (fun e => messagebox.showerror
                      "Failed to delete desktop entry file" (Some e))
          (DesktopEntryManager.remove_entry index;;
           refresh_list;;
           messagebox.showinfo "Desktop entry deleted successfully.")
      else mret tt
  end.

End App.
End Application.

(** ** An implementation of the [json] interface

    The text [json.dumps(v, indent=4)] produces (items on lines of their
    own, four spaces per level, everything outside printable ASCII
    escaped) and a decoder for the JSON grammar over the values of
    [json].  A document that needs a value [json] does not have (a number
    with a fraction or an exponent, a character beyond the 8-bit range)
    is refused like a malformed one. *)

Module PyJson.

Local Open Scope N_scope.

Definition hex_digit (n : N) : ascii :=
  match n with
  | 0 => "0" | 1 => "1" | 2 => "2" | 3 => "3" | 4 => "4" | 5 => "5"
  | 6 => "6" | 7 => "7" | 8 => "8" | 9 => "9" | 10 => "a" | 11 => "b"
  | 12 => "c" | 13 => "d" | 14 => "e" | _ => "f"
  end%N%char.

Definition hex_value (c : ascii) : option N :=
  let n := N_of_ascii c in
  if (48 <=? n) && (n <=? 57) then Some (n - 48)
  else if (97 <=? n) && (n <=? 102) then Some (n - 87)
  else if (65 <=? n) && (n <=? 70) then Some (n - 55)
  else None.

Definition backslash : ascii := ascii_of_nat 92.
Definition dquote : ascii := Py.dquote.

(** One character inside a string literal, as [ensure_ascii] writes it. *)
Definition escape_char (c : ascii) : string :=
  let n := N_of_ascii c in
  if n =? 34 then String backslash (String dquote "")
  else if n =? 92 then String backslash (String backslash "")
  else if n =? 10 then String backslash "n"
  else if n =? 13 then String backslash "r"
  else if n =? 9 then String backslash "t"
  else if n =? 8 then String backslash "b"
  else if n =? 12 then String backslash "f"
  else if (n <? 32) || (126 <? n) then
    String backslash
      (String "u" (String "0" (String "0"
         (String (hex_digit (n / 16)) (String (hex_digit (n mod 16)) "")))))
  else String c "".

Fixpoint escape (s : string) : string :=
  match s with
  | EmptyString => EmptyString
  | String c s' => escape_char c ++ escape s'
  end.

Definition quote (s : string) : string :=
  String dquote (escape s ++ String dquote "").

Fixpoint spaces (n : nat) : string :=
  match n with
  | O => EmptyString
  | S n' => String " " (spaces n')
  end.

Definition indent (lvl : nat) : string := String Py.newline (spaces (4 * lvl)).

Definition item_sep (lvl : nat) : string := String "," (indent lvl).

Fixpoint join (sep : string) (parts : list string) : string :=
  match parts with
  | [] => EmptyString
  | [p] => p
  | p :: ps => p ++ sep ++ join sep ps
  end.

Fixpoint dump (lvl : nat) (v : json) : string :=
  match v with
  | JNull => "null"
  | JBool b => if b then "true" else "false"
  | JInt z => Py.str_of_int z
  | JStr s => quote s
  | JArr [] => "[]"
  | JArr items =>
      "[" ++ indent (S lvl)
      ++ join (item_sep (S lvl)) (map (dump (S lvl)) items)
      ++ indent lvl ++ "]"
  | JObj [] => "{}"
  | JObj members =>
      "{" ++ indent (S lvl)
      ++ join (item_sep (S lvl))
           (map (fun kv => quote (fst kv) ++ ": " ++ dump (S lvl) (snd kv))
                members)
      ++ indent lvl ++ "}"
  end.

Definition dumps (v : json) : string := dump 0 v.

(** *** Decoding *)

Definition is_ws (c : ascii) : bool :=
  let n := N_of_ascii c in
  (n =? 32) || (n =? 9) || (n =? 10) || (n =? 13).

Definition is_digit (c : ascii) : bool :=
  let n := N_of_ascii c in (48 <=? n) && (n <=? 57).

Fixpoint skip_ws (s : string) : string :=
  match s with
  | String c r => if is_ws c then skip_ws r else s
  | EmptyString => EmptyString
  end.

Fixpoint span_digits (s : string) : string * string :=
  match s with
  | String c r =>
      if is_digit c then let (d, r') := span_digits r in (String c d, r')
      else (EmptyString, s)
  | EmptyString => (EmptyString, EmptyString)
  end.

(** The character a backslash escape of one letter stands for. *)
Definition unescape (e : ascii) : option ascii :=
  let n := N_of_ascii e in
  if n =? 34 then Some dquote
  else if n =? 92 then Some backslash
  else if n =? 47 then Some "/"%char
  else if n =? 98 then Some (ascii_of_nat 8)
  else if n =? 102 then Some (ascii_of_nat 12)
  else if n =? 110 then Some (ascii_of_nat 10)
  else if n =? 114 then Some (ascii_of_nat 13)
  else if n =? 116 then Some (ascii_of_nat 9)
  else None.

Definition hex4 (a b c d : ascii) : option N :=
  match hex_value a, hex_value b, hex_value c, hex_value d with
  | Some x, Some y, Some z, Some w => Some (((x * 16 + y) * 16 + z) * 16 + w)%N
  | _, _, _, _ => None
  end.

(** The rest of a string literal, after its opening quote.  Control
    characters must be escaped; a code point beyond the 8-bit range has
    no [ascii] and is refused. *)
Fixpoint scan_string (s : string) : option (string * string) :=
  match s with
  | EmptyString => None
  | String c r =>
      if Ascii.eqb c dquote then Some (EmptyString, r)
      else if Ascii.eqb c backslash then
        match r with
        | String e r1 =>
            if Ascii.eqb e "u" then
              match r1 with
              | String h1 (String h2 (String h3 (String h4 r2))) =>
                  match hex4 h1 h2 h3 h4 with
                  | Some n =>
                      if (n <? 256)%N then
                        match scan_string r2 with
                        | Some (t, r') => Some (String (ascii_of_N n) t, r')
                        | None => None
                        end
                      else None
                  | None => None
                  end
              | _ => None
              end
            else
              match unescape e with
              | Some c' =>
                  match scan_string r1 with
                  | Some (t, r') => Some (String c' t, r')
                  | None => None
                  end
              | None => None
              end
        | EmptyString => None
        end
      else if (N_of_ascii c <? 32)%N then None
      else
        match scan_string r with
        | Some (t, r') => Some (String c t, r')
        | None => None
        end
  end.

(** An integer literal.  A leading zero is a number by itself; a literal
    that goes on with a fraction or an exponent is not an integer. *)
Definition scan_digits (s : string) : option (uint * string) :=
  match s with
  | String c r =>
      if Ascii.eqb c "0" then Some (D0 Nil, r)
      else
        let (d, r') := span_digits s in
        match NilZero.uint_of_string d with
        | Some u => Some (u, r')
        | None => None
        end
  | EmptyString => None
  end.

Definition starts_fraction (s : string) : bool :=
  match s with
  | String c _ => Ascii.eqb c "." || Ascii.eqb c "e" || Ascii.eqb c "E"
  | EmptyString => false
  end.

Definition scan_number (s : string) : option (json * string) :=
  let (negative, s1) :=
    match s with
    | String c r => if Ascii.eqb c "-" then (true, r) else (false, s)
    | EmptyString => (false, s)
    end in
  match scan_digits s1 with
  | Some (u, r) =>
      if starts_fraction r then None
      else Some (JInt (Z.of_int (if negative then Neg u else Pos u)), r)
  | None => None
  end.

Fixpoint strip_prefix (word s : string) : option string :=
  match word, s with
  | EmptyString, _ => Some s
  | String a w, String b t => if Ascii.eqb a b then strip_prefix w t else None
  | String _ _, EmptyString => None
  end.

Definition expect (word : string) (v : json) (s : string)
  : option (json * string) :=
  match strip_prefix word s with
  | Some r => Some (v, r)
  | None => None
  end.

Definition starts (c : ascii) (s : string) : bool :=
  match s with
  | String c' _ => Ascii.eqb c' c
  | EmptyString => false
  end.

Definition tail (s : string) : string :=
  match s with
  | String _ r => r
  | EmptyString => EmptyString
  end.

(** [dict(pairs)]: a key met again keeps its place and takes the new
    value. *)
Fixpoint dict_set (k : string) (v : json) (d : list (string * json))
  : list (string * json) :=
  match d with
  | [] => [(k, v)]
  | (k', v') :: d' =>
      if String.eqb k k' then (k', v) :: d' else (k', v') :: dict_set k v d'
  end.

Definition dict_of_pairs (pairs : list (string * json)) : list (string * json) :=
  fold_left (fun d kv => dict_set (fst kv) (snd kv) d) pairs [].

Fixpoint scan_value (fuel : nat) (s : string) {struct fuel}
  : option (json * string) :=
  match fuel with
  | O => None
  | S fuel' =>
      if starts dquote s then
        match scan_string (tail s) with
        | Some (t, r) => Some (JStr t, r)
        | None => None
        end
      else if starts "[" s then
        let r := skip_ws (tail s) in
        if starts "]" r then Some (JArr [], tail r)
        else
          match scan_items fuel' r with
          | Some (items, r') => Some (JArr items, r')
          | None => None
          end
      else if starts "{" s then
        let r := skip_ws (tail s) in
        if starts "}" r then Some (JObj [], tail r)
        else
          match scan_members fuel' r with
          | Some (pairs, r') => Some (JObj (dict_of_pairs pairs), r')
          | None => None
          end
      else if starts "n" s then expect "null" JNull s
      else if starts "t" s then expect "true" (JBool true) s
      else if starts "f" s then expect "false" (JBool false) s
      else scan_number s
  end
with scan_items (fuel : nat) (s : string) {struct fuel}
  : option (list json * string) :=
  match fuel with
  | O => None
  | S fuel' =>
      match scan_value fuel' s with
      | Some (x, r) =>
          let r1 := skip_ws r in
          if starts "," r1 then
            match scan_items fuel' (skip_ws (tail r1)) with
            | Some (xs, r') => Some (x :: xs, r')
            | None => None
            end
          else if starts "]" r1 then Some ([x], tail r1)
          else None
      | None => None
      end
  end
with scan_members (fuel : nat) (s : string) {struct fuel}
  : option (list (string * json) * string) :=
  match fuel with
  | O => None
  | S fuel' =>
      if starts dquote s then
        match scan_string (tail s) with
        | Some (k, r) =>
            let r1 := skip_ws r in
            if starts ":" r1 then
              match scan_value fuel' (skip_ws (tail r1)) with
              | Some (x, r2) =>
                  let r3 := skip_ws r2 in
                  if starts "," r3 then
                    match scan_members fuel' (skip_ws (tail r3)) with
                    | Some (kvs, r') => Some ((k, x) :: kvs, r')
                    | None => None
                    end
                  else if starts "}" r3 then Some ([(k, x)], tail r3)
                  else None
              | None => None
              end
            else None
        | None => None
        end
      else None
  end.

(** [json.loads]: one value, blanks around it, nothing else. *)
Definition loads (s : string) : option json :=
  match scan_value (S (String.length s)) (skip_ws s) with
  | Some (v, r) =>
      match skip_ws r with
      | EmptyString => Some v
      | String _ _ => None
      end
  | None => None
  end.

#[export] Instance codec : JsonCodec :=
  {| json_dumps := dumps; json_loads := loads |}.

End PyJson.

(** The number of nodes of a value, which bounds the depth the decoder
    needs to read its text. *)
Fixpoint json_size (v : json) : nat :=
  match v with
  | JArr items => S (list_sum (map (fun x => S (json_size x)) items))
  | JObj members => S (list_sum (map (fun kv => S (json_size (snd kv))) members))
  | _ => 1%nat
  end.

(** A text after which a number literal is over. *)
Definition closes (rest : string) : bool :=
  match rest with
  | EmptyString => true
  | String c _ => negb (PyJson.is_digit c) && negb (PyJson.starts_fraction rest)
  end.

(** ** Reading a run *)

Definition result {A} (c : M A) (m : machine) : res A := fst (c m).
Definition after {A} (c : M A) (m : machine) : machine := snd (c m).

(** The events a statement added to the trace. *)
Definition events_of {A} (c : M A) (m : machine) : list event :=
  drop (length (trace m)) (trace (after c m)).

Definition is_dict (v : json) : bool :=
  match v with
  | JObj _ => true
  | _ => false
  end.

(** ** The registry as the specification speaks of it *)

Module Registry.
Section Registry.
Context `{codec : JsonCodec}.










End Registry.
End Registry.

(** ** The descriptor as the specification lists it *)

Definition descriptor_fields (name bundle icon class_id : string) : list string :=
  [ "Version=1.0";
    "Type=Application";
    "Name=" ++ name;
    "Exec=" ++ Py.dq ++ bundle ++ Py.dq;
    "Icon=" ++ icon;
    "StartupWMClass=" ++ class_id;
    "Terminal=false";
    "Categories=Utility;" ].

Definition resolved_class_id (class_id : option string) (name : string) : string :=
  match class_id with
  | Some c => if String.eqb c "" then name else c
  | None => name
  end.

(** The row [refresh_list] shows for a record. *)
Definition row_of (entry : json) : json * json :=
  match entry with
  | JObj members =>
      (from_option id (JStr "Unnamed") (assoc "app_name" members),
       from_option id (JStr "") (assoc "desktop_file" members))
  | _ => (JNull, JNull)
  end.

Definition is_write (ev : event) : bool :=
  match ev with
  | EvWrite _ _ => true
  | _ => false
  end.

Definition is_error_box (ev : event) : bool :=
  match ev with
  | EvShowError _ _ => true
  | _ => false
  end.

(** ** Concrete runs *)

(** A machine on which nothing has happened yet: no files, an empty
    registry, and an environment in which every call passes. *)
Definition fresh : machine := Machine ∅ ∅ ∅ [] [] (JArr []) [].

(** The answers of a user who registers [/opt/Sample.AppImage] under the
    name [Sample] and cancels the two optional dialogs, at second [ts]. *)
Definition sample (ts : Z) : Application.answers :=
  Application.Answers "/opt/Sample.AppImage" (Some "Sample") None "" ts.

Definition sample_record (ts : Z) : json :=
  Application.new_entry "Sample" "/opt/Sample.AppImage"
    (Application.desktop_path "/home/u" "Sample" ts).

Definition first_record : json := sample_record 1700000000.
Definition second_record : json := sample_record 1700000060.

Definition first_descriptor : string :=
  Application.desktop_path "/home/u" "Sample" 1700000000.
Definition second_descriptor : string :=
  Application.desktop_path "/home/u" "Sample" 1700000060.

(** A registry of two records whose descriptor files are gone. *)
Definition two_records : machine :=
  with_state (JArr [first_record; second_record]) fresh.

(** The same registry with the second descriptor in place, and with an
    environment that refuses the next call. *)
Definition second_in_place : machine :=
  with_files {[ second_descriptor := "[Desktop Entry]" ]} two_records.

Definition second_locked : machine := with_oracle [Deny] second_in_place.

(** A backing file that is not JSON, and one that is JSON for a
    dictionary instead of a list. *)
Definition garbled : machine :=
  with_files {[ STATE_FILE := "{not json" ]} fresh.

Definition wrong_shape : machine :=
  with_files {[ STATE_FILE := "{}" ]} fresh.


(** ** Auxiliary notions of the proofs *)

(** A character an integer literal can begin with. *)
Definition number_head (c : ascii) : bool := PyJson.is_digit c || Ascii.eqb c "-".

(** The text of one member of a dictionary, as [PyJson.dump] writes it. *)
Definition member_text (lvl : nat) (kv : string * json) : string :=
  PyJson.quote (fst kv) ++ ": " ++ PyJson.dump lvl (snd kv).

(** A text that begins with a character which is neither a blank nor the
    bracket that closes a list. *)
Definition solid (t : string) : Prop :=
  exists c s, t = String c s /\ PyJson.is_ws c = false /\ Ascii.eqb c "]" = false.

(** The decoder reads the text of [v] back as [v], whatever follows. *)
Definition reads_back (v : json) : Prop :=
  wf_json v = true ->
  forall lvl rest fuel,
    (json_size v <= fuel)%nat -> closes rest = true ->
    PyJson.scan_value fuel (PyJson.dump lvl v ++ rest) = Some (v, rest).

Section Outcomes.
Context `{codec : JsonCodec}.

(** What [save_state] leaves behind, by the verdict on its write. *)
Definition saved (m : machine) : machine :=
  let m0 := with_oracle (tl (oracle m)) m in
  match hd Pass (oracle m) with
  | Pass =>
      with_trace (trace m ++ [EvWrite STATE_FILE true])
        (with_files (<[STATE_FILE := json_dumps (state m)]> (files m)) m0)
  | Deny =>
      with_trace ((trace m ++ [EvWrite STATE_FILE false])
                  ++ [EvPrint "Error saving state" (Some OSError)]) m0
  | Partial n =>
      with_trace ((trace m ++ [EvWrite STATE_FILE false])
                  ++ [EvPrint "Error saving state" (Some OSError)])
        (with_files (<[STATE_FILE := String.substring 0 n (json_dumps (state m))]>
                       (files m)) m0)
  end.

Definition save_events (m : machine) : list event :=
  match hd Pass (oracle m) with
  | Pass => [EvWrite STATE_FILE true]
  | _ => [EvWrite STATE_FILE false; EvPrint "Error saving state" (Some OSError)]
  end.

End Outcomes.

(** [keeps p c]: running [c] does not change the file at [p]. *)
Definition keeps {A} (p : string) (c : M A) : Prop :=
  forall m, files (after c m) !! p = files m !! p.

Ltac unfold_monad :=
  unfold events_of, result, after,
    mbind, mret, M_bind, M_ret, bind, ret, raise, lift, gets, modify,
    try_except, try_or_return, log, next_verdict in *.

Ltac unfold_os :=
  unfold OS.read_file, OS.write_file, OS.chmod, OS.remove, OS.path_exists,
    OS.print, messagebox.showerror, messagebox.showwarning,
    messagebox.showinfo in *.

Ltac unfold_manager :=
  unfold DesktopEntryManager.init, DesktopEntryManager.add_entry,
    DesktopEntryManager.remove_entry, DesktopEntryManager.load_state,
    DesktopEntryManager.save_state, DesktopEntryManager.json_load,
    DesktopEntryManager.state_append, DesktopEntryManager.state_pop,
    DesktopEntryManager.set_state in *.

Ltac mrun := unfold_manager; unfold_os; unfold_monad; cbn -[String.eqb].

(** ** The list view and the registry *)

(** The registry is the list [items] of dictionaries and the view shows
    one row per record, in the order of the list. *)
Definition shows (m : machine) (items : list json) : Prop :=
  state m = JArr items
  /\ forallb is_dict items = true
  /\ tree m = map row_of items.

(** [leaves_view c]: running [c] changes neither the registry nor the
    view. *)
Definition leaves_view {A} (c : M A) : Prop :=
  forall m, state (after c m) = state m /\ tree (after c m) = tree m.

(** The record [create_desktop_entry] appends for the answers [a]. *)
Definition created_record (userhome : string) (a : Application.answers) : json :=
  let name := default "" (Application.app_name a) in
  Application.new_entry name (Application.appimage_path a)
    (Application.desktop_path userhome name (Application.timestamp a)).

(** [c in s] for a character [c]. *)
Fixpoint occurs (c : ascii) (s : string) : bool :=
  match s with
  | EmptyString => false
  | String c' s' => Ascii.eqb c' c || occurs c s'
  end.

(** A new process on the files another one left behind: nothing of the
    old process's memory is there, whatever [st] and [rows] are. *)
Definition restarted (st : json) (rows : list (json * json)) (m : machine) : machine :=
  with_tree rows (with_state st m).

(** The registry of [second_in_place] with its two rows in the view, and
    with another program's file next to the descriptor. *)
Definition on_screen : machine :=
  with_tree (map row_of [first_record; second_record]) second_in_place.

Definition with_hosts : machine :=
  with_files (<["/etc/hosts" := "127.0.0.1 localhost"]> (files on_screen)) on_screen.

(** A registry whose second item is a number, and one whose only record
    has no [desktop_file]. *)
Definition number_inside : machine :=
  with_state (JArr [first_record; JInt 1; second_record]) fresh.

Definition unnamed_file : machine :=
  with_state (JArr [JObj [("app_name", JStr "Sample")]]) fresh.

(** A backing document that is a list with a number in it. *)
Definition number_document : machine :=
  with_files {[ STATE_FILE := "[1]" ]} fresh.

(** * Proofs *)

(** ** Strings *)

Lemma append_assoc (a b c : string) : (a ++ b) ++ c = a ++ (b ++ c).
Proof. induction a as [|x a IH]; simpl; [reflexivity | f_equal; exact IH]. Qed.

Lemma append_nil_r (a : string) : a ++ "" = a.
Proof. induction a as [|x a IH]; simpl; [reflexivity | f_equal; exact IH]. Qed.

Lemma length_append (a b : string) :
  String.length (a ++ b) = (String.length a + String.length b)%nat.
Proof. induction a as [|x a IH]; simpl; [reflexivity | f_equal; exact IH]. Qed.

(** ** Induction on values, through the lists inside them *)

Lemma json_nested_ind (P : json -> Prop) :
  P JNull ->
  (forall b, P (JBool b)) ->
  (forall z, P (JInt z)) ->
  (forall s, P (JStr s)) ->
  (forall items, Forall P items -> P (JArr items)) ->
  (forall members, Forall (fun kv => P (snd kv)) members -> P (JObj members)) ->
  forall v, P v.
Proof.
  intros HN HB HI HS HA HO. fix IH 1. intros [| b | z | s | items | members].
  - exact HN.
  - apply HB.
  - apply HI.
  - apply HS.
  - apply HA. induction items as [|x items IHl]; constructor; [apply IH | exact IHl].
  - apply HO. induction members as [|[k x] members IHl]; constructor;
      [apply IH | exact IHl].
Qed.

Module PyJsonFacts.
Import PyJson.

(** *** String literals *)

Lemma scan_escape_char (c : ascii) (t : string) :
  scan_string (escape_char c ++ t) =
  match scan_string t with
  | Some (u, r) => Some (String c u, r)
  | None => None
  end.
Proof.
  destruct c as [[] [] [] [] [] [] [] []]; reflexivity.
Qed.

Lemma scan_escape (s rest : string) :
  scan_string (escape s ++ String dquote rest) = Some (s, rest).
Proof.
  induction s as [|c s IH]; [reflexivity|].
  cbn [escape]. rewrite append_assoc, scan_escape_char, IH. reflexivity.
Qed.

Lemma scan_quote (s rest : string) :
  scan_string (tail (quote s ++ rest)) = Some (s, rest).
Proof.
  unfold quote. cbn [tail append]. rewrite append_assoc. apply scan_escape.
Qed.

(** *** Blanks *)

Lemma skip_ws_spaces (n : nat) (s : string) :
  skip_ws (spaces n ++ s) = skip_ws s.
Proof. induction n as [|n IH]; simpl; [reflexivity | exact IH]. Qed.

Lemma skip_ws_indent (lvl : nat) (s : string) :
  skip_ws (indent lvl ++ s) = skip_ws s.
Proof. unfold indent. simpl. apply skip_ws_spaces. Qed.

Lemma skip_ws_solid (c : ascii) (s : string) :
  is_ws c = false -> skip_ws (String c s) = String c s.
Proof. intros H. simpl. now rewrite H. Qed.

(** *** Integer literals *)

Lemma span_digits_uint (d : uint) (rest : string) :
  closes rest = true ->
  span_digits (NilEmpty.string_of_uint d ++ rest)
  = (NilEmpty.string_of_uint d, rest).
Proof.
  intros Hrest. induction d; simpl; rewrite ?IHd; try reflexivity.
  destruct rest as [|c r]; [reflexivity|]. simpl in *.
  destruct (is_digit c); [discriminate | reflexivity].
Qed.

Lemma to_uint_not_D0 (p : positive) (d : uint) : Pos.to_uint p <> D0 d.
Proof.
  intros H.
  assert (Hn : unorm (Pos.to_uint p) = Pos.to_uint p).
  { rewrite <- DecimalPos.Unsigned.to_of, DecimalPos.Unsigned.of_to. reflexivity. }
  rewrite H in Hn. unfold unorm in Hn.
  destruct (nzhead (D0 d)) eqn:Hz; try discriminate.
  - injection Hn as <-. exact (DecimalPos.Unsigned.to_uint_nonzero p H).
  - exact (DecimalFacts.nzhead_nonzero _ _ Hz).
Qed.

Lemma scan_digits_pos (p : positive) (rest : string) :
  closes rest = true ->
  scan_digits (NilEmpty.string_of_uint (Pos.to_uint p) ++ rest)
  = Some (Pos.to_uint p, rest).
Proof.
  intros Hrest.
  pose proof (to_uint_not_D0 p) as H0.
  pose proof (DecimalPos.Unsigned.to_uint_nonnil p) as Hnil.
  pose proof (span_digits_uint (Pos.to_uint p) rest Hrest) as Hspan.
  pose proof (NilZero.usu (Pos.to_uint p) Hnil) as Husu.
  assert (Hz : NilZero.string_of_uint (Pos.to_uint p)
               = NilEmpty.string_of_uint (Pos.to_uint p)).
  { destruct (Pos.to_uint p); [contradiction | reflexivity..]. }
  rewrite Hz in Husu.
  unfold scan_digits.
  destruct (Pos.to_uint p) as [|d|d|d|d|d|d|d|d|d|d];
    [contradiction | now destruct (H0 d) | ..];
    (cbn [NilEmpty.string_of_uint append] in *;
     cbn [Ascii.eqb Bool.eqb]; rewrite Hspan, Husu; reflexivity).
Qed.

Lemma pos_head (p : positive) :
  exists c s, NilEmpty.string_of_uint (Pos.to_uint p) = String c s
              /\ is_digit c = true.
Proof.
  pose proof (DecimalPos.Unsigned.to_uint_nonnil p) as Hnil.
  destruct (Pos.to_uint p); [contradiction | ..]; simpl; eauto.
Qed.

Lemma str_of_int_pos (p : positive) :
  Py.str_of_int (Z.pos p) = NilEmpty.string_of_uint (Pos.to_uint p).
Proof.
  unfold Py.str_of_int. simpl.
  pose proof (DecimalPos.Unsigned.to_uint_nonnil p) as Hnil.
  destruct (Pos.to_uint p); [contradiction | reflexivity..].
Qed.

Lemma str_of_int_neg (p : positive) :
  Py.str_of_int (Z.neg p) = String "-" (NilEmpty.string_of_uint (Pos.to_uint p)).
Proof.
  unfold Py.str_of_int. simpl. f_equal.
  pose proof (DecimalPos.Unsigned.to_uint_nonnil p) as Hnil.
  destruct (Pos.to_uint p); [contradiction | reflexivity..].
Qed.

Lemma str_of_int_head (z : Z) :
  exists c s, Py.str_of_int z = String c s /\ number_head c = true.
Proof.
  destruct z as [|p|p].
  - exists "0"%char, ""; split; reflexivity.
  - rewrite str_of_int_pos. destruct (pos_head p) as (c & s & -> & Hc).
    exists c, s. split; [reflexivity|]. unfold number_head. now rewrite Hc.
  - rewrite str_of_int_neg. eexists _, _. split; reflexivity.
Qed.

Lemma scan_number_str (z : Z) (rest : string) :
  closes rest = true ->
  scan_number (Py.str_of_int z ++ rest) = Some (JInt z, rest).
Proof.
  intros Hrest.
  assert (Hfrac : starts_fraction rest = false).
  { destruct rest as [|c r]; [reflexivity|]. simpl in Hrest.
    apply andb_true_iff in Hrest as [_ H]. now apply negb_true_iff in H. }
  destruct z as [|p|p].
  - unfold scan_number.
    change (Py.str_of_int 0 ++ rest) with (String "0" rest).
    cbn [Ascii.eqb Bool.eqb scan_digits]. rewrite Hfrac. reflexivity.
  - rewrite str_of_int_pos. unfold scan_number.
    destruct (pos_head p) as (c & s & Hs & Hc).
    pose proof (scan_digits_pos p rest Hrest) as Hscan.
    rewrite Hs in *.
    change (String c s ++ rest) with (String c (s ++ rest)) in *.
    cbv beta iota.
    assert (Hm : Ascii.eqb c "-" = false).
    { destruct c as [[] [] [] [] [] [] [] []]; try discriminate; reflexivity. }
    rewrite Hm, Hscan, Hfrac.
    change (Pos (Pos.to_uint p)) with (Z.to_int (Z.pos p)).
    now rewrite DecimalZ.of_to.
  - rewrite str_of_int_neg. unfold scan_number.
    cbn [append Ascii.eqb Bool.eqb].
    rewrite (scan_digits_pos p rest Hrest), Hfrac.
    change (Neg (Pos.to_uint p)) with (Z.to_int (Z.neg p)).
    now rewrite DecimalZ.of_to.
Qed.

Lemma scan_value_number (fuel : nat) (c : ascii) (s : string) :
  number_head c = true ->
  scan_value (S fuel) (String c s) = scan_number (String c s).
Proof.
  intros H.
  destruct c as [[] [] [] [] [] [] [] []]; try discriminate; reflexivity.
Qed.

Lemma number_head_solid (c : ascii) :
  number_head c = true -> is_ws c = false /\ Ascii.eqb c "]" = false.
Proof.
  destruct c as [[] [] [] [] [] [] [] []]; try discriminate; split; reflexivity.
Qed.

(** *** Dictionaries *)

Lemma dict_set_fresh k v (acc rest : list (string * json)) :
  distinct (map fst (acc ++ (k, v) :: rest)%list) = true ->
  dict_set k v acc = (acc ++ [(k, v)])%list.
Proof.
  induction acc as [|[k' v'] acc IH]; intros H; [reflexivity|].
  simpl in H. apply andb_true_iff in H as [Hk H].
  apply negb_true_iff in Hk.
  simpl. rewrite (IH H).
  destruct (String.eqb k k') eqn:E; [|reflexivity].
  apply String.eqb_eq in E; subst k'.
  rewrite map_app, existsb_app in Hk. simpl in Hk.
  rewrite String.eqb_refl in Hk. simpl in Hk.
  now rewrite orb_true_r in Hk.
Qed.

Lemma dict_of_pairs_from (pairs acc : list (string * json)) :
  distinct (map fst (acc ++ pairs)%list) = true ->
  fold_left (fun d kv => dict_set (fst kv) (snd kv) d) pairs acc
  = (acc ++ pairs)%list.
Proof.
  revert acc. induction pairs as [|[k v] pairs IH]; intros acc H; simpl.
  - now rewrite app_nil_r.
  - rewrite (dict_set_fresh k v acc pairs H).
    rewrite IH; rewrite <- app_assoc; [reflexivity | exact H].
Qed.

Lemma dict_of_pairs_distinct (pairs : list (string * json)) :
  distinct (map fst pairs) = true -> dict_of_pairs pairs = pairs.
Proof. intros H. unfold dict_of_pairs. now rewrite dict_of_pairs_from. Qed.

(** *** Values *)

Lemma scan_value_S fuel s :
  scan_value (S fuel) s =
  if starts dquote s then
    match scan_string (tail s) with
    | Some (t, r) => Some (JStr t, r)
    | None => None
    end
  else if starts "[" s then
    let r := skip_ws (tail s) in
    if starts "]" r then Some (JArr [], tail r)
    else
      match scan_items fuel r with
      | Some (items, r') => Some (JArr items, r')
      | None => None
      end
  else if starts "{" s then
    let r := skip_ws (tail s) in
    if starts "}" r then Some (JObj [], tail r)
    else
      match scan_members fuel r with
      | Some (pairs, r') => Some (JObj (dict_of_pairs pairs), r')
      | None => None
      end
  else if starts "n" s then expect "null" JNull s
  else if starts "t" s then expect "true" (JBool true) s
  else if starts "f" s then expect "false" (JBool false) s
  else scan_number s.
Proof. reflexivity. Qed.

Lemma scan_items_S fuel s :
  scan_items (S fuel) s =
  match scan_value fuel s with
  | Some (x, r) =>
      let r1 := skip_ws r in
      if starts "," r1 then
        match scan_items fuel (skip_ws (tail r1)) with
        | Some (xs, r') => Some (x :: xs, r')
        | None => None
        end
      else if starts "]" r1 then Some ([x], tail r1)
      else None
  | None => None
  end.
Proof. reflexivity. Qed.

Lemma scan_members_S fuel s :
  scan_members (S fuel) s =
  if starts dquote s then
    match scan_string (tail s) with
    | Some (k, r) =>
        let r1 := skip_ws r in
        if starts ":" r1 then
          match scan_value fuel (skip_ws (tail r1)) with
          | Some (x, r2) =>
              let r3 := skip_ws r2 in
              if starts "," r3 then
                match scan_members fuel (skip_ws (tail r3)) with
                | Some (kvs, r') => Some ((k, x) :: kvs, r')
                | None => None
                end
              else if starts "}" r3 then Some ([(k, x)], tail r3)
              else None
          | None => None
          end
        else None
    | None => None
    end
  else None.
Proof. reflexivity. Qed.

Lemma solid_app t r : solid t -> solid (t ++ r).
Proof. intros (c & s & -> & H). exists c, (s ++ r). now split. Qed.

Lemma solid_skip_ws t : solid t -> skip_ws t = t.
Proof. intros (c & s & -> & H & _). now apply skip_ws_solid. Qed.

Lemma solid_starts_close t : solid t -> starts "]" t = false.
Proof. intros (c & s & -> & _ & H). exact H. Qed.

Lemma dump_solid lvl v : solid (dump lvl v).
Proof.
  destruct v as [| [] | z | s | [|x items] | [|kv members]];
    try (eexists _, _; split; [reflexivity | split; reflexivity]).
  destruct (str_of_int_head z) as (c & s & Hs & Hc).
  exists c, s. split; [exact Hs | now apply number_head_solid].
Qed.

Lemma join_solid sep lvl x xs :
  solid (join sep (map (dump lvl) (x :: xs))).
Proof.
  destruct xs as [|y ys]; simpl; [apply dump_solid|].
  apply solid_app, dump_solid.
Qed.

Lemma closes_indent lvl r : closes (indent lvl ++ r) = true.
Proof. reflexivity. Qed.

Lemma scan_items_join (xs : list json) :
  Forall reads_back xs -> forallb wf_json xs = true -> xs <> [] ->
  forall lvl rest fuel,
    (list_sum (map (fun x => S (json_size x)) xs) <= fuel)%nat ->
    scan_items fuel
      (join (item_sep (S lvl)) (map (dump (S lvl)) xs)
       ++ indent lvl ++ String "]" rest)
    = Some (xs, rest).
Proof.
  induction 1 as [|x xs Hx Hxs IH]; intros Hwf Hne lvl rest fuel Hfuel;
    [contradiction|].
  simpl in Hwf. apply andb_true_iff in Hwf as [Hwx Hwxs].
  simpl in Hfuel. destruct fuel as [|fuel]; [lia|].
  rewrite scan_items_S.
  destruct xs as [|y ys].
  - simpl join.
    rewrite (Hx Hwx (S lvl) _ fuel) by (simpl in *; lia || apply closes_indent).
    cbv zeta. rewrite skip_ws_indent. reflexivity.
  - change (join (item_sep (S lvl)) (map (dump (S lvl)) (x :: y :: ys)))
      with (dump (S lvl) x ++ item_sep (S lvl)
            ++ join (item_sep (S lvl)) (map (dump (S lvl)) (y :: ys))).
    rewrite !append_assoc.
    rewrite (Hx Hwx (S lvl) _ fuel) by (lia || reflexivity).
    cbv zeta.
    change (item_sep (S lvl) ++ ?t) with (String "," (indent (S lvl) ++ t)).
    rewrite (skip_ws_solid "," _ eq_refl).
    change (starts "," (String "," ?t)) with true. cbv iota.
    change (tail (String "," ?t)) with t.
    rewrite skip_ws_indent.
    rewrite solid_skip_ws by apply solid_app, join_solid.
    rewrite (IH Hwxs) by (discriminate || lia).
    reflexivity.
Qed.

Lemma member_join_solid sep lvl kv kvs :
  solid (join sep (map (member_text lvl) (kv :: kvs))).
Proof.
  assert (solid (member_text lvl kv)).
  { eexists _, _. split; [reflexivity | split; reflexivity]. }
  destruct kvs as [|kv' kvs']; cbn [map join]; [assumption | now apply solid_app].
Qed.

Lemma scan_members_join (kvs : list (string * json)) :
  Forall (fun kv => reads_back (snd kv)) kvs ->
  forallb (fun kv => wf_json (snd kv)) kvs = true -> kvs <> [] ->
  forall lvl rest fuel,
    (list_sum (map (fun kv => S (json_size (snd kv))) kvs) <= fuel)%nat ->
    scan_members fuel
      (join (item_sep (S lvl)) (map (member_text (S lvl)) kvs)
       ++ indent lvl ++ String "}" rest)
    = Some (kvs, rest).
Proof.
  induction 1 as [|[k x] kvs Hx Hkvs IH]; intros Hwf Hne lvl rest fuel Hfuel;
    [contradiction|].
  simpl in Hwf. apply andb_true_iff in Hwf as [Hwx Hwkvs].
  simpl in Hfuel, Hx. destruct fuel as [|fuel]; [lia|].
  assert (Hstep : forall R,
    closes R = true ->
    scan_members (S fuel) (member_text (S lvl) (k, x) ++ R) =
    let r3 := skip_ws R in
    if starts "," r3 then
      match scan_members fuel (skip_ws (tail r3)) with
      | Some (kvs, r') => Some ((k, x) :: kvs, r')
      | None => None
      end
    else if starts "}" r3 then Some ([(k, x)], tail r3)
    else None).
  { intros R HR. rewrite scan_members_S. unfold member_text.
    cbn [fst snd]. rewrite !append_assoc.
    change (starts dquote (quote k ++ ?t)) with true. cbv iota.
    rewrite scan_quote.
    change (": " ++ ?t) with (String ":" (String " " t)).
    cbv zeta.
    rewrite (skip_ws_solid ":" _ eq_refl).
    change (starts ":" (String ":" ?t)) with true. cbv iota.
    change (tail (String ":" ?t)) with t.
    change (skip_ws (String " " ?t)) with (skip_ws t).
    rewrite solid_skip_ws by apply solid_app, dump_solid.
    rewrite (Hx Hwx (S lvl) R fuel) by (lia || exact HR).
    reflexivity. }
  destruct kvs as [|kv' kvs'].
  - simpl join. rewrite Hstep by apply closes_indent.
    cbv zeta. rewrite skip_ws_indent. reflexivity.
  - change (join (item_sep (S lvl)) (map (member_text (S lvl)) ((k, x) :: kv' :: kvs')))
      with (member_text (S lvl) (k, x) ++ item_sep (S lvl)
            ++ join (item_sep (S lvl)) (map (member_text (S lvl)) (kv' :: kvs'))).
    rewrite !append_assoc. rewrite Hstep by reflexivity.
    cbv zeta.
    change (item_sep (S lvl) ++ ?t) with (String "," (indent (S lvl) ++ t)).
    rewrite (skip_ws_solid "," _ eq_refl).
    change (starts "," (String "," ?t)) with true. cbv iota.
    change (tail (String "," ?t)) with t.
    rewrite skip_ws_indent.
    rewrite solid_skip_ws by apply solid_app, member_join_solid.
    rewrite (IH Hwkvs) by (discriminate || lia).
    reflexivity.
Qed.

Lemma scan_dump (v : json) : reads_back v.
Proof.
  induction v as [| b | z | s | items IH | members IH] using json_nested_ind;
    intros Hwf lvl rest fuel Hfuel Hrest;
    (destruct fuel as [|fuel]; [simpl in Hfuel; lia|]).
  - reflexivity.
  - destruct b; reflexivity.
  - destruct (str_of_int_head z) as (c & s & Hs & Hc).
    pose proof (scan_number_str z rest Hrest) as Hn.
    cbn [dump]. rewrite Hs in *.
    change (String c s ++ rest) with (String c (s ++ rest)) in *.
    now rewrite scan_value_number.
  - rewrite scan_value_S. cbn [dump].
    change (starts dquote (quote s ++ ?t)) with true. cbv iota.
    now rewrite scan_quote.
  - destruct items as [|x items]; [reflexivity|].
    rewrite scan_value_S.
    change (dump lvl (JArr (x :: items)))
      with (String "[" (indent (S lvl)
             ++ join (item_sep (S lvl)) (map (dump (S lvl)) (x :: items))
             ++ indent lvl ++ "]")).
    change (String "[" ?a ++ rest) with (String "[" (a ++ rest)).
    rewrite !append_assoc.
    change (starts dquote (String "[" ?t)) with false.
    change (starts "[" (String "[" ?t)) with true. cbv iota.
    change (tail (String "[" ?t)) with t. cbv zeta.
    rewrite skip_ws_indent.
    rewrite solid_skip_ws by apply solid_app, join_solid.
    rewrite solid_starts_close by apply solid_app, join_solid.
    change ("]" ++ rest) with (String "]" rest).
    rewrite (scan_items_join (x :: items) IH) by
      (exact Hwf || discriminate || (simpl in Hfuel |- *; lia)).
    reflexivity.
  - destruct members as [|kv members]; [reflexivity|].
    rewrite scan_value_S.
    change (dump lvl (JObj (kv :: members)))
      with (String "{" (indent (S lvl)
             ++ join (item_sep (S lvl)) (map (member_text (S lvl)) (kv :: members))
             ++ indent lvl ++ "}")).
    change (String "{" ?a ++ rest) with (String "{" (a ++ rest)).
    rewrite !append_assoc.
    change (starts dquote (String "{" ?t)) with false.
    change (starts "[" (String "{" ?t)) with false.
    change (starts "{" (String "{" ?t)) with true. cbv iota.
    change (tail (String "{" ?t)) with t. cbv zeta.
    rewrite skip_ws_indent.
    rewrite solid_skip_ws by apply solid_app, member_join_solid.
    assert (Hq : forall t, starts "}" (join (item_sep (S lvl))
                   (map (member_text (S lvl)) (kv :: members)) ++ t) = false).
    { intros t. destruct members; reflexivity. }
    rewrite Hq.
    change ("}" ++ rest) with (String "}" rest).
    cbn [wf_json] in Hwf. apply andb_true_iff in Hwf as [Hd Hwf].
    rewrite (scan_members_join (kv :: members) IH) by
      (exact Hwf || discriminate || (simpl in Hfuel |- *; lia)).
    now rewrite dict_of_pairs_distinct.
Qed.

(** *** The text is long enough to pay for its own decoding *)

Lemma join_length {A} (f : A -> string) (g : A -> nat) sep (xs : list A) :
  Forall (fun x => (g x <= String.length (f x))%nat) xs ->
  (1 <= String.length sep)%nat ->
  (list_sum (map (fun x => S (g x)) xs)
   <= S (String.length (join sep (map f xs))))%nat.
Proof.
  intros H Hsep. induction H as [|x xs Hx Hxs IH]; [simpl; lia|].
  destruct xs as [|y ys].
  - simpl. lia.
  - change (join sep (map f (x :: y :: ys)))
      with (f x ++ sep ++ join sep (map f (y :: ys))).
    rewrite !length_append.
    change (list_sum (map (fun x => S (g x)) (x :: y :: ys)))
      with (S (g x) + list_sum (map (fun x => S (g x)) (y :: ys)))%nat.
    lia.
Qed.

Lemma dump_length (v : json) :
  forall lvl, (json_size v <= String.length (dump lvl v))%nat.
Proof.
  induction v as [| b | z | s | items IH | members IH] using json_nested_ind;
    intros lvl.
  - simpl. lia.
  - destruct b; simpl; lia.
  - destruct (str_of_int_head z) as (c & s & Hs & _).
    cbn [dump json_size]. rewrite Hs. simpl. lia.
  - simpl. lia.
  - destruct items as [|x items]; [simpl; lia|].
    change (dump lvl (JArr (x :: items)))
      with (String "[" (indent (S lvl)
             ++ join (item_sep (S lvl)) (map (dump (S lvl)) (x :: items))
             ++ indent lvl ++ "]")).
    cbn [json_size String.length]. rewrite !length_append.
    pose proof (join_length (dump (S lvl)) json_size (item_sep (S lvl))
                  (x :: items)) as H.
    assert (Forall (fun x => (json_size x <= String.length (dump (S lvl) x))%nat)
              (x :: items)) as HF.
    { eapply Forall_impl; [exact IH | intros y Hy; apply Hy]. }
    specialize (H HF). unfold item_sep, indent in *. simpl String.length in *. lia.
  - destruct members as [|kv members]; [simpl; lia|].
    change (dump lvl (JObj (kv :: members)))
      with (String "{" (indent (S lvl)
             ++ join (item_sep (S lvl)) (map (member_text (S lvl)) (kv :: members))
             ++ indent lvl ++ "}")).
    cbn [json_size String.length]. rewrite !length_append.
    pose proof (join_length (member_text (S lvl)) (fun kv => json_size (snd kv))
                  (item_sep (S lvl)) (kv :: members)) as H.
    assert (Forall (fun kv => (json_size (snd kv)
                               <= String.length (member_text (S lvl) kv))%nat)
              (kv :: members)) as HF.
    { eapply Forall_impl; [exact IH | intros y Hy; cbv beta in *].
      unfold member_text. rewrite !length_append. specialize (Hy (S lvl)). lia. }
    specialize (H HF). unfold item_sep, indent in *. simpl String.length in *. lia.
Qed.

(** [json.loads(json.dumps(v, indent=4)) == v] *)
Lemma loads_dumps_ok (v : json) :
  wf_json v = true -> loads (dumps v) = Some v.
Proof.
  intros Hwf. unfold loads, dumps.
  rewrite solid_skip_ws by apply dump_solid.
  rewrite <- (append_nil_r (dump 0 v)) at 2.
  rewrite (scan_dump v Hwf 0%nat "" (S (String.length (dump 0 v))))
    by (reflexivity || (pose proof (dump_length v 0%nat); lia)).
  reflexivity.
Qed.

Lemma round_trip : JsonRoundTrip PyJson.codec.
Proof. intros v Hwf. apply loads_dumps_ok, Hwf. Qed.

End PyJsonFacts.

(** ** Running statements *)

Lemma drop_own_length {A} (l k : list A) : drop (length l) (l ++ k)%list = k.
Proof. induction l as [|x l IH]; [reflexivity | exact IH]. Qed.

Lemma bind_ret_run {A B} (c : M A) (k : A -> M B) (m m1 : machine) (a : A) :
  c m = (Ret a, m1) -> (x ← c; k x) m = k a m1.
Proof. intros H. unfold mbind, M_bind, bind. now rewrite H. Qed.

Lemma bind_raise_run {A B} (c : M A) (k : A -> M B) (m m1 : machine) (e : exn) :
  c m = (Raise e, m1) -> (x ← c; k x) m = (Raise e, m1).
Proof. intros H. unfold mbind, M_bind, bind. now rewrite H. Qed.

Lemma try_or_return_ret {A} (c : M unit) (h : exn -> M A) (k : M A)
    (m m1 : machine) (u : unit) :
  c m = (Ret u, m1) -> try_or_return c h k m = k m1.
Proof. intros H. unfold try_or_return. now rewrite H. Qed.

Lemma try_or_return_raise {A} (c : M unit) (h : exn -> M A) (k : M A)
    (m m1 : machine) (e : exn) :
  c m = (Raise e, m1) -> try_or_return c h k m = h e m1.
Proof. intros H. unfold try_or_return. now rewrite H. Qed.

(** ** The registry *)

Section ManagerFacts.
Context `{codec : JsonCodec}.
Import DesktopEntryManager.

Lemma save_state_eq (m : machine) : save_state m = (Ret tt, saved m).
Proof. unfold saved. mrun. destruct (hd Pass (oracle m)); reflexivity. Qed.

Lemma saved_state (m : machine) : state (saved m) = state m.
Proof. unfold saved. destruct (hd Pass (oracle m)); reflexivity. Qed.

Lemma saved_tree (m : machine) : tree (saved m) = tree m.
Proof. unfold saved. destruct (hd Pass (oracle m)); reflexivity. Qed.

Lemma saved_events (m : machine) :
  exists ok rest,
    trace (saved m) = (trace m ++ EvWrite STATE_FILE ok :: rest)%list.
Proof.
  unfold saved. destruct (hd Pass (oracle m)); simpl; rewrite <- ?app_assoc;
    eexists _, _; reflexivity.
Qed.

Lemma remove_entry_in_range (m : machine) (items : list json) (index : Z)
    (entry : json) :
  state m = JArr items ->
  0 <= index ->
  items !! Z.to_nat index = Some entry ->
  DesktopEntryManager.remove_entry index m
  = (Ret entry, saved (with_state (JArr (delete (Z.to_nat index) items)) m)).
Proof.
  intros Hstate Hlo Hentry.
  assert (Hhi : index < Z.of_nat (length items)).
  { apply lookup_lt_Some in Hentry. lia. }
  unfold DesktopEntryManager.remove_entry.
  apply Z.leb_le in Hlo. rewrite Hlo.
  unfold DesktopEntryManager.state_pop, DesktopEntryManager.set_state.
  unfold_monad. cbn -[saved]. rewrite !Hstate. cbn -[saved].
  apply Z.ltb_lt in Hhi. rewrite Hhi. rewrite Hstate, Hentry.
  rewrite save_state_eq. reflexivity.
Qed.

Lemma remove_entry_out_of_range (m : machine) (items : list json) (index : Z) :
  state m = JArr items ->
  ~ (0 <= index < Z.of_nat (length items)) ->
  DesktopEntryManager.remove_entry index m = (Ret JNull, m).
Proof.
  intros Hstate Hout. unfold DesktopEntryManager.remove_entry.
  destruct (0 <=? index) eqn:Hlo; [|reflexivity].
  unfold_monad. cbn. rewrite Hstate. cbn.
  apply Z.leb_le in Hlo.
  destruct (index <? Z.of_nat (length items)) eqn:Hhi; [|reflexivity].
  apply Z.ltb_lt in Hhi. lia.
Qed.

End ManagerFacts.

(** C3. [remove_entry] at a position inside [0, len) takes the record at
    that position out of the list, returns it and saves; at any other
    position it returns [None] and leaves the machine as it was: the
    list is not changed and nothing is written. *)
Theorem remove_entry_in_and_out_of_range `{codec : JsonCodec}
    (m : machine) (items : list json) (index : Z) :
  state m = JArr items ->
  (0 <= index < Z.of_nat (length items) ->
   exists entry,
     items !! Z.to_nat index = Some entry
     /\ result (DesktopEntryManager.remove_entry index) m = Ret entry
     /\ state (after (DesktopEntryManager.remove_entry index) m)
        = JArr (delete (Z.to_nat index) items)
     /\ after (DesktopEntryManager.remove_entry index) m
        = after DesktopEntryManager.save_state
            (with_state (JArr (delete (Z.to_nat index) items)) m)
     /\ exists ok rest,
          events_of (DesktopEntryManager.remove_entry index) m
          = EvWrite STATE_FILE ok :: rest)
  /\ (~ (0 <= index < Z.of_nat (length items)) ->
      DesktopEntryManager.remove_entry index m = (Ret JNull, m)).
Proof.
  intros Hstate. split.
  - intros [Hlo Hhi].
    destruct (items !! Z.to_nat index) as [entry|] eqn:Hentry.
    2:{ apply lookup_ge_None in Hentry. lia. }
    exists entry. split; [reflexivity|].
    unfold events_of, result, after.
    rewrite (remove_entry_in_range m items index entry Hstate Hlo Hentry),
      save_state_eq.
    cbn [fst snd].
    split; [reflexivity|].
    split; [now rewrite saved_state|].
    split; [reflexivity|].
    destruct (saved_events (with_state (JArr (delete (Z.to_nat index) items)) m))
      as (ok & rest & Ht).
    exists ok, rest. rewrite Ht. cbn [trace with_state]. apply drop_own_length.
  - apply remove_entry_out_of_range, Hstate.
Qed.

(** C7. Whether the backing file is absent, cannot be read, or holds a
    text that is not JSON, [load_state] returns normally and leaves the
    empty list in [self.state]. *)
Theorem load_state_recovers `{codec : JsonCodec} (m : machine) :
  files m !! STATE_FILE = None
  \/ hd Pass (oracle m) <> Pass
  \/ (exists text, files m !! STATE_FILE = Some text /\ json_loads text = None) ->
  result DesktopEntryManager.load_state m = Ret tt
  /\ state (after DesktopEntryManager.load_state m) = JArr [].
Proof.
  intros H. destruct m as [fs md fd o t st tr]. cbn [files oracle] in H.
  mrun.
  destruct (fs !! STATE_FILE) as [text|] eqn:Hfile; cbn; rewrite ?Hfile; cbn.
  2:{ split; reflexivity. }
  destruct (hd Pass o) eqn:Hv; cbn; try (split; reflexivity).
  destruct (json_loads text) as [v|] eqn:Hparse; cbn; [|split; reflexivity].
  destruct H as [H | [H | (text' & H & Hbad)]];
    [discriminate | congruence | congruence].
Qed.

(** C9. [load_state] takes whatever value the document decodes to: when
    the file is read and its text is JSON for [v], the state is [v],
    whether or not [v] is a list of records. *)
Theorem load_state_keeps_any_value `{codec : JsonCodec}
    (m : machine) (text : string) (v : json) :
  files m !! STATE_FILE = Some text ->
  hd Pass (oracle m) = Pass ->
  json_loads text = Some v ->
  result DesktopEntryManager.load_state m = Ret tt
  /\ state (after DesktopEntryManager.load_state m) = v.
Proof.
  intros Hfile Hv Hparse. destruct m as [fs md fd o t st tr].
  cbn [files oracle] in *. mrun.
  rewrite !Hfile. cbn. rewrite ?Hfile, Hv. cbn. rewrite Hparse. cbn.
  split; reflexivity.
Qed.

(** ** Creating a registration *)

(** C8. When the name prompt is answered with nothing, the only thing
    [create_desktop_entry] does is show the error: no file is written and
    the registry is not touched. *)
Theorem create_with_empty_name `{codec : JsonCodec}
    (userhome : string) (a : Application.answers) (m : machine) :
  Application.appimage_path a <> "" ->
  Application.app_name a = None \/ Application.app_name a = Some "" ->
  Application.create_desktop_entry userhome a m
  = (Ret tt,
     with_trace
       (trace m ++ [EvShowError "Application name cannot be empty." None]) m).
Proof.
  intros Hpath Hname. unfold Application.create_desktop_entry.
  apply String.eqb_neq in Hpath. rewrite Hpath.
  destruct Hname as [-> | ->]; reflexivity.
Qed.

(** The descriptor is never the backing document: its name ends in
    [.desktop]. *)
Lemma ends_in_desktop_not_state_file (pre : string) :
  pre ++ ".desktop" <> STATE_FILE.
Proof.
  intros H.
  assert (Hlen : String.length pre = 2%nat).
  { apply (f_equal String.length) in H. rewrite length_append in H.
    simpl in H. lia. }
  destruct pre as [|a [|b [|c pre]]]; try discriminate Hlen.
  discriminate H.
Qed.

Lemma desktop_path_ends_in_desktop (userhome name : string) (ts : Z) :
  exists pre, Application.desktop_path userhome name ts = pre ++ ".desktop".
Proof.
  unfold Application.desktop_path, Application.desktop_filename, OS.path_join.
  set (dir := Application.DESKTOP_ENTRY_DIR userhome).
  set (stem := Py.replace " " "_" name).
  repeat match goal with |- context [if ?b then _ else _] => destruct b end;
    rewrite <- ?append_assoc; eexists; reflexivity.
Qed.

Lemma desktop_path_not_state_file (userhome name : string) (ts : Z) :
  Application.desktop_path userhome name ts <> STATE_FILE.
Proof.
  destruct (desktop_path_ends_in_desktop userhome name ts) as [pre ->].
  apply ends_in_desktop_not_state_file.
Qed.

Section CreateFacts.
Context `{codec : JsonCodec}.
Variable userhome : string.

Lemma create_with_name (a : Application.answers) (name : string) :
  Application.appimage_path a <> "" ->
  Application.app_name a = Some name ->
  name <> "" ->
  Application.create_desktop_entry userhome a =
  let wm := Application.resolve_wm_class (Application.wm_class a) name in
  let desktop_file_path :=
    Application.desktop_path userhome name (Application.timestamp a) in
  let content :=
    Application.desktop_content name (Application.appimage_path a)
      (Application.icon_path a) wm in
  try_or_return
    (OS.write_file desktop_file_path content;;
     OS.chmod desktop_file_path 493)
    (fun e => messagebox.showerror "Failed to create desktop entry" (Some e))
    (DesktopEntryManager.add_entry
       (Application.new_entry name (Application.appimage_path a)
          desktop_file_path);;
     Application.refresh_list;;
     messagebox.showinfo ("Desktop entry created: " ++ desktop_file_path)).
Proof.
  intros Hpath Hname Hne. unfold Application.create_desktop_entry.
  apply String.eqb_neq in Hpath. rewrite Hpath, Hname.
  apply String.eqb_neq in Hne. cbn [Py.falsy default]. rewrite Hne.
  reflexivity.
Qed.

End CreateFacts.

(** C4. When the descriptor cannot be written, or its permissions cannot
    be set, [create_desktop_entry] shows the error and stops: the list in
    memory is what it was, the backing document is what it was, and no
    write to the backing document was attempted. *)
Theorem create_failure_keeps_registry `{codec : JsonCodec}
    (userhome : string) (a : Application.answers) (name : string) (m : machine) :
  Application.appimage_path a <> "" ->
  Application.app_name a = Some name ->
  name <> "" ->
  let path := Application.desktop_path userhome name (Application.timestamp a) in
  let content :=
    Application.desktop_content name (Application.appimage_path a)
      (Application.icon_path a)
      (Application.resolve_wm_class (Application.wm_class a) name) in
  (exists e, result (OS.write_file path content) m = Raise e)
  \/ (result (OS.write_file path content) m = Ret tt
      /\ exists e, result (OS.chmod path 493)
                     (after (OS.write_file path content) m) = Raise e) ->
  let m' := after (Application.create_desktop_entry userhome a) m in
  result (Application.create_desktop_entry userhome a) m = Ret tt
  /\ (exists e, last (trace m')
                = Some (EvShowError "Failed to create desktop entry" (Some e)))
  /\ state m' = state m
  /\ tree m' = tree m
  /\ files m' !! STATE_FILE = files m !! STATE_FILE
  /\ Forall (fun ev => forall ok, ev <> EvWrite STATE_FILE ok)
       (events_of (Application.create_desktop_entry userhome a) m).
Proof.
  intros Hpath Hname Hne path content Hfail m'.
  pose proof (desktop_path_not_state_file userhome name (Application.timestamp a))
    as Hother.
  subst m'. rewrite (create_with_name userhome a name Hpath Hname Hne).
  cbv zeta. fold path content. fold path in Hother.
  clearbody path content. clear Hpath Hname Hne.
  destruct m as [fs md fd o t st tr].
  unfold_os; unfold_monad; cbn in *.
  assert (Hclean : forall ev evs,
            (forall ok, ev <> EvWrite STATE_FILE ok) ->
            Forall (fun ev => forall ok, ev <> EvWrite STATE_FILE ok) evs ->
            Forall (fun ev => forall ok, ev <> EvWrite STATE_FILE ok) (ev :: evs))
    by (intros; now constructor).
  destruct (hd Pass o) eqn:Hv1; cbn in *;
    [ rewrite lookup_insert_eq in *; cbn in *;
      destruct (hd Pass (tail o)) eqn:Hv2; cbn in *;
      [ destruct Hfail as [[e He] | [_ [e He]]]; discriminate | .. ] | .. ];
    rewrite <- ?app_assoc, last_app, drop_own_length, ?lookup_insert_ne
      by congruence;
    (split; [reflexivity|]); (split; [eexists; reflexivity|]);
    (split; [reflexivity|]); (split; [reflexivity|]); (split; [reflexivity|]);
    repeat (apply Hclean; [congruence|]); constructor.
Qed.

(** ** What a statement leaves alone *)

Section Frames.
Context `{codec : JsonCodec}.
Variable p : string.

Lemma keeps_ret {A} (a : A) : keeps p (mret a).
Proof. intros m. reflexivity. Qed.

Lemma keeps_raise {A} (e : exn) : keeps p (@raise A e).
Proof. intros m. reflexivity. Qed.

Lemma keeps_lift {A} (r : res A) : keeps p (lift r).
Proof. intros m. reflexivity. Qed.

Lemma keeps_gets {A} (f : machine -> A) : keeps p (gets f).
Proof. intros m. reflexivity. Qed.

Lemma keeps_log (ev : event) : keeps p (log ev).
Proof. intros m. reflexivity. Qed.

Lemma keeps_bind {A B} (c : M A) (k : A -> M B) :
  keeps p c -> (forall a, keeps p (k a)) -> keeps p (x ← c; k x).
Proof.
  intros Hc Hk m. specialize (Hc m). unfold after in *.
  unfold mbind, M_bind, bind. destruct (c m) as [[a|e] m1]; cbn in *.
  - rewrite <- Hc. apply Hk.
  - exact Hc.
Qed.

Lemma keeps_try_except {A} (c : M A) (h : exn -> M A) :
  keeps p c -> (forall e, keeps p (h e)) -> keeps p (try_except c h).
Proof.
  intros Hc Hh m. specialize (Hc m). unfold after, try_except in *.
  destruct (c m) as [[a|e] m1]; cbn in *.
  - exact Hc.
  - rewrite <- Hc. apply Hh.
Qed.

Lemma keeps_try_or_return {A} (c : M unit) (h : exn -> M A) (k : M A) :
  keeps p c -> (forall e, keeps p (h e)) -> keeps p k ->
  keeps p (try_or_return c h k).
Proof.
  intros Hc Hh Hk m. specialize (Hc m). unfold after, try_or_return in *.
  destruct (c m) as [[a|e] m1]; cbn in *; rewrite <- Hc; [apply Hk | apply Hh].
Qed.

Lemma keeps_write_file (q text : string) : p <> q -> keeps p (OS.write_file q text).
Proof.
  intros Hne m. unfold after. unfold_os; unfold_monad; cbn.
  destruct (hd Pass (oracle m)); cbn; rewrite ?lookup_insert_ne by congruence;
    reflexivity.
Qed.

Lemma keeps_chmod (q : string) (mode : Z) : keeps p (OS.chmod q mode).
Proof.
  intros m. unfold after. unfold_os; unfold_monad; cbn.
  destruct (hd Pass (oracle m)), (files m !! q); reflexivity.
Qed.

Lemma keeps_save_state : p <> STATE_FILE -> keeps p DesktopEntryManager.save_state.
Proof.
  intros Hne. apply keeps_try_except.
  - apply keeps_bind; [apply keeps_gets | intros v; now apply keeps_write_file].
  - intros e. apply keeps_log.
Qed.

Lemma keeps_add_entry (entry : json) :
  p <> STATE_FILE -> keeps p (DesktopEntryManager.add_entry entry).
Proof.
  intros Hne. apply keeps_bind; [|intros _; now apply keeps_save_state].
  apply keeps_bind; [apply keeps_gets|]. intros v.
  destruct v; try apply keeps_raise. intros m; reflexivity.
Qed.

Lemma keeps_for_each {A} (body : A -> M unit) (xs : list A) :
  (forall x, keeps p (body x)) -> keeps p (Application.for_each body xs).
Proof.
  intros Hb. induction xs as [|x xs IH]; [apply keeps_ret|].
  apply keeps_bind; [apply Hb | intros _; exact IH].
Qed.

Lemma keeps_refresh_list : keeps p Application.refresh_list.
Proof.
  apply keeps_bind; [intros m; reflexivity | intros _].
  apply keeps_bind; [apply keeps_gets | intros v].
  apply keeps_bind; [apply keeps_lift | intros entries].
  apply keeps_for_each. intros entry.
  apply keeps_bind; [apply keeps_lift | intros name].
  apply keeps_bind; [apply keeps_lift | intros file].
  intros m; reflexivity.
Qed.

End Frames.

(** ** The descriptor document *)

Lemma has_newline_app (a b : string) :
  Py.has_newline (a ++ b) = Py.has_newline a || Py.has_newline b.
Proof.
  induction a as [|c a IH]; [reflexivity|].
  simpl. rewrite IH. now rewrite orb_assoc.
Qed.

Lemma split_lines_plain (l : string) :
  Py.has_newline l = false -> Py.split_lines l = [l].
Proof.
  induction l as [|c l IH]; [reflexivity|]. simpl.
  intros H. apply orb_false_iff in H as [Hc Hl].
  rewrite Hc, (IH Hl). reflexivity.
Qed.

Lemma split_lines_line (l rest : string) :
  Py.has_newline l = false ->
  Py.split_lines (l ++ String Py.newline rest) = l :: Py.split_lines rest.
Proof.
  induction l as [|c l IH]; [reflexivity|]. simpl.
  intros H. apply orb_false_iff in H as [Hc Hl].
  rewrite Hc, (IH Hl). reflexivity.
Qed.

Lemma split_lines_concat (l : string) (ls : list string) :
  forallb (fun x => negb (Py.has_newline x)) (l :: ls) = true ->
  Py.split_lines (String.concat Application.nl (l :: ls)) = l :: ls.
Proof.
  revert l. induction ls as [|l' ls IH]; intros l H.
  - simpl in *. apply split_lines_plain.
    apply andb_true_iff in H as [H _]. now apply negb_true_iff in H.
  - change (String.concat Application.nl (l :: l' :: ls))
      with (l ++ String Py.newline (String.concat Application.nl (l' :: ls))).
    cbn [forallb] in H. apply andb_true_iff in H as [Hl H].
    apply negb_true_iff in Hl.
    rewrite (split_lines_line _ _ Hl), (IH l' H). reflexivity.
Qed.

Lemma desktop_content_lines (name bundle icon class_id : string) :
  Application.desktop_content name bundle icon class_id
  = String.concat Application.nl
      ("[Desktop Entry]" :: descriptor_fields name bundle icon class_id).
Proof.
  unfold Application.desktop_content, descriptor_fields.
  cbn [String.concat]. rewrite !append_assoc. reflexivity.
Qed.

Lemma resolve_wm_class_resolved (class_id : option string) (name : string) :
  Application.resolve_wm_class class_id name = resolved_class_id class_id name.
Proof.
  unfold Application.resolve_wm_class, resolved_class_id, Py.falsy.
  destruct class_id as [c|]; [|reflexivity]. now destruct (String.eqb c "").
Qed.

(** C2. The document written for a registration is the group header
    followed by the eight fields, in this order, each value put in as it
    was given: Version, Type, Name, Exec with the bundle path between
    double quotes, Icon, StartupWMClass with the class id (the name when
    none was given), Terminal and Categories.  When no value contains a
    line break these nine lines are all the lines of the file. *)
Theorem descriptor_document `{codec : JsonCodec}
    (userhome : string) (a : Application.answers) (name : string) (m : machine) :
  Application.appimage_path a <> "" ->
  Application.app_name a = Some name ->
  name <> "" ->
  hd Pass (oracle m) = Pass ->
  let class_id := resolved_class_id (Application.wm_class a) name in
  let fields :=
    descriptor_fields name (Application.appimage_path a)
      (Application.icon_path a) class_id in
  let document := String.concat Application.nl ("[Desktop Entry]" :: fields) in
  files (after (Application.create_desktop_entry userhome a) m)
    !! Application.desktop_path userhome name (Application.timestamp a)
  = Some document
  /\ (Py.has_newline name || Py.has_newline (Application.appimage_path a)
      || Py.has_newline (Application.icon_path a) || Py.has_newline class_id
      = false ->
      Py.split_lines document = "[Desktop Entry]" :: fields).
Proof.
  intros Hpath Hname Hne Hpass class_id fields document. split.
  - pose proof (desktop_path_not_state_file userhome name (Application.timestamp a))
      as Hother.
    rewrite (create_with_name userhome a name Hpath Hname Hne). cbv zeta.
    rewrite resolve_wm_class_resolved, desktop_content_lines.
    fold class_id fields document.
    set (path := Application.desktop_path userhome name (Application.timestamp a))
      in *.
    clearbody path document.
    unfold after, try_or_return.
    assert (Hwrite : OS.write_file path document m
                     = (Ret tt,
                        with_trace (trace m ++ [EvWrite path true])
                          (with_files (<[path := document]> (files m))
                             (with_oracle (tl (oracle m)) m)))).
    { unfold_os; unfold_monad; cbn. now rewrite Hpass. }
    unfold mbind at 1, M_bind at 1, bind at 1. rewrite Hwrite.
    set (m1 := with_trace _ _).
    assert (Hm1 : files m1 !! path = Some document) by apply lookup_insert_eq.
    pose proof (keeps_chmod path path 493 m1) as Hchmod. unfold after in Hchmod.
    destruct (OS.chmod path 493 m1) as [[[]|e] m2]; cbn [fst snd] in *.
    + rewrite <- Hm1, <- Hchmod.
      apply (keeps_bind path); [now apply keeps_add_entry | intros _].
      apply keeps_bind; [apply keeps_refresh_list | intros _; apply keeps_log].
    + now rewrite <- Hm1, <- Hchmod.
  - intros Hplain. apply split_lines_concat.
    repeat (apply orb_false_iff in Hplain as [Hplain ?]).
    unfold fields, descriptor_fields. cbn [forallb].
    rewrite !has_newline_app, Hplain, H, H0, H1. reflexivity.
Qed.

(** ** Deleting a registration *)

Lemma with_tree_twice (r1 r2 : list (json * json)) (m : machine) :
  with_tree r2 (with_tree r1 m) = with_tree r2 m.
Proof. reflexivity. Qed.

Lemma forallb_delete {A} (f : A -> bool) (i : nat) (l : list A) :
  forallb f l = true -> forallb f (delete i l) = true.
Proof.
  revert i. induction l as [|x l IH]; intros i H; [now destruct i|].
  simpl in H. apply andb_true_iff in H as [Hx Hl].
  destruct i as [|i]; [exact Hl|]. simpl. now rewrite Hx, IH.
Qed.

Section DeleteFacts.
Context `{codec : JsonCodec}.

Lemma for_each_rows (items : list json) (m : machine) :
  forallb is_dict items = true ->
  Application.for_each
    (fun entry =>
       name ← lift (Py.get entry "app_name" (JStr "Unnamed"));
       file ← lift (Py.get entry "desktop_file" (JStr ""));
       Application.tree_insert (name, file))
    items m
  = (Ret tt, with_tree (tree m ++ map row_of items) m).
Proof.
  revert m. induction items as [|entry items IH]; intros m Hd.
  - destruct m; cbn. now rewrite app_nil_r.
  - cbn [forallb] in Hd. apply andb_true_iff in Hd as [He Hd].
    destruct entry; try discriminate He.
    cbn [Application.for_each]. unfold mbind at 1, M_bind at 1, bind at 1.
    unfold Application.tree_insert. unfold_monad. cbn -[Application.for_each].
    rewrite (IH _ Hd). cbn. now rewrite <- app_assoc.
Qed.

Lemma refresh_list_dicts (m : machine) (items : list json) :
  state m = JArr items ->
  forallb is_dict items = true ->
  Application.refresh_list m = (Ret tt, with_tree (map row_of items) m).
Proof.
  intros Hstate Hd. unfold Application.refresh_list.
  unfold_monad. cbn -[Application.for_each]. rewrite Hstate.
  cbn -[Application.for_each]. now rewrite (for_each_rows _ _ Hd).
Qed.

Lemma delete_entry_resolved (m : machine) (v entry d : json) (index : Z) :
  state m = v ->
  Py.getitem v index = Ret entry ->
  Py.get entry "desktop_file" JNull = Ret d ->
  Application.delete_entry (Some index) true m
  = try_or_return
      (there ← OS.path_exists d;
       if there : bool then OS.remove d else mret tt)
      (fun e => messagebox.showerror
                  "Failed to delete desktop entry file" (Some e))
      (DesktopEntryManager.remove_entry index;;
       Application.refresh_list;;
       messagebox.showinfo "Desktop entry deleted successfully.") m.
Proof.
  intros Hstate Hitem Hget. unfold Application.delete_entry.
  unfold mbind at 1, M_bind at 1, bind at 1, gets at 1. rewrite Hstate.
  unfold mbind at 1, M_bind at 1, bind at 1, lift at 1. rewrite Hitem.
  unfold mbind at 1, M_bind at 1, bind at 1, lift at 1. rewrite Hget.
  destruct entry; try discriminate Hget. reflexivity.
Qed.

Lemma list_getitem_front {A} (l : list A) (i : Z) (x : A) :
  0 <= i -> l !! Z.to_nat i = Some x -> Py.list_getitem l i = Ret x.
Proof.
  intros Hlo Hx. pose proof (lookup_lt_Some _ _ _ Hx) as Hlt.
  assert (E1 : (i <? 0) = false) by (apply Z.ltb_ge; lia).
  assert (E2 : (Z.of_nat (length l) <=? i) = false) by (apply Z.leb_gt; lia).
  unfold Py.list_getitem. cbv zeta. rewrite E1. rewrite E1, E2.
  cbn [orb]. now rewrite Hx.
Qed.

Lemma list_getitem_back {A} (l : list A) (i : Z) (x : A) :
  - Z.of_nat (length l) <= i < 0 ->
  l !! Z.to_nat (i + Z.of_nat (length l)) = Some x ->
  Py.list_getitem l i = Ret x.
Proof.
  intros [Hlo Hhi] Hx.
  assert (E0 : (i <? 0) = true) by (apply Z.ltb_lt; lia).
  assert (E1 : (i + Z.of_nat (length l) <? 0) = false) by (apply Z.ltb_ge; lia).
  assert (E2 : (Z.of_nat (length l) <=? i + Z.of_nat (length l)) = false)
    by (apply Z.leb_gt; lia).
  unfold Py.list_getitem. cbv zeta. rewrite E0. rewrite E1, E2.
  cbn [orb]. now rewrite Hx.
Qed.

Lemma list_getitem_beyond {A} (l : list A) (i : Z) :
  Z.of_nat (length l) <= i -> Py.list_getitem l i = Raise IndexError.
Proof.
  intros Hhi.
  assert (E1 : (i <? 0) = false) by (apply Z.ltb_ge; lia).
  assert (E2 : (Z.of_nat (length l) <=? i) = true) by (apply Z.leb_le; lia).
  unfold Py.list_getitem. cbv zeta. rewrite E1. rewrite E1, E2. reflexivity.
Qed.

End DeleteFacts.

Lemma saved_quiet `{codec : JsonCodec} (m : machine) :
  exists evs, trace (saved m) = (trace m ++ evs)%list
              /\ existsb is_error_box evs = false.
Proof.
  unfold saved. destruct (hd Pass (oracle m)); cbn; rewrite <- ?app_assoc;
    eexists; (split; [reflexivity|]); reflexivity.
Qed.

(** C5. Deleting the registration at a position inside the list, once
    the user has confirmed: when the descriptor file is not there, the
    record is removed from the list, no error is shown and the success
    message is; when the file is there and [os.remove] fails, the error is
    shown and the list keeps the record. *)
Theorem delete_entry_absent_or_failing `{codec : JsonCodec}
    (m : machine) (items : list json) (index : Z) (entry : json) (p : string) :
  state m = JArr items ->
  forallb is_dict items = true ->
  0 <= index ->
  items !! Z.to_nat index = Some entry ->
  Py.get entry "desktop_file" JNull = Ret (JStr p) ->
  let act := Application.delete_entry (Some index) true in
  (files m !! p = None ->
   result act m = Ret tt
   /\ state (after act m) = JArr (delete (Z.to_nat index) items)
   /\ existsb is_error_box (events_of act m) = false
   /\ last (trace (after act m))
      = Some (EvShowInfo "Desktop entry deleted successfully."))
  /\ (files m !! p <> None ->
      (exists e, result (OS.remove (JStr p)) m = Raise e) ->
      result act m = Ret tt
      /\ state (after act m) = JArr items
      /\ files (after act m) = files m
      /\ exists e, last (trace (after act m))
                   = Some (EvShowError "Failed to delete desktop entry file"
                             (Some e))).
Proof.
  intros Hstate Hdicts Hlo Hentry Hfile act.
  assert (Hrun : act m = _) by
    (apply (delete_entry_resolved m (JArr items) entry (JStr p) index Hstate);
     [apply (list_getitem_front items index entry Hlo Hentry) | exact Hfile]).
  split.
  - intros Habsent.
    assert (Hbody : (there ← OS.path_exists (JStr p);
                     if there : bool then OS.remove (JStr p) else mret tt) m
                    = (Ret tt, m)).
    { unfold OS.path_exists. unfold_monad. cbn. rewrite Habsent.
      now rewrite bool_decide_eq_false_2 by (intros [? ?]; discriminate). }
    rewrite (try_or_return_ret _ _ _ _ _ _ Hbody) in Hrun.
    rewrite (bind_ret_run _ _ _ _ _
               (remove_entry_in_range m items index entry Hstate Hlo Hentry))
      in Hrun.
    set (m1 := with_state (JArr (delete (Z.to_nat index) items)) m) in *.
    assert (Hrefresh : Application.refresh_list (saved m1)
                       = (Ret tt, with_tree (map row_of (delete (Z.to_nat index) items))
                                    (saved m1))).
    { apply refresh_list_dicts; [now rewrite saved_state | now apply forallb_delete]. }
    rewrite (bind_ret_run _ _ _ _ _ Hrefresh) in Hrun.
    unfold events_of, result, after. rewrite Hrun.
    destruct (saved_quiet m1) as (evs & Ht & Hquiet).
    unfold messagebox.showinfo, log, modify.
    cbn [fst snd trace with_trace with_tree state].
    rewrite saved_state, Ht, last_snoc. subst m1. cbn [trace with_state state].
    rewrite <- app_assoc, drop_own_length, existsb_app, Hquiet.
    repeat split; reflexivity.
  - intros Hthere [e He].
    assert (Hbody : exists m1,
               (there ← OS.path_exists (JStr p);
                if there : bool then OS.remove (JStr p) else mret tt) m
               = (Raise e, m1)
               /\ state m1 = state m /\ files m1 = files m).
    { unfold result in He. unfold OS.path_exists.
      destruct m as [fs md fd o t st tr]. cbn [files] in *.
      unfold_os; unfold_monad. cbn in *.
      destruct (fs !! p) eqn:E; [|contradiction].
      rewrite bool_decide_eq_true_2 by eauto. cbn. rewrite E.
      destruct (hd Pass o); cbn in *; try discriminate He;
        injection He as <-; eexists; repeat split; reflexivity. }
    destruct Hbody as (m1 & Hbody & Hst & Hfs).
    rewrite (try_or_return_raise _ _ _ _ _ _ Hbody) in Hrun.
    unfold result, after. rewrite Hrun.
    unfold messagebox.showerror, log, modify.
    cbn [fst snd trace with_trace state files].
    rewrite last_snoc, Hst, Hfs. repeat split; eauto.
Qed.

(** C10. [delete_entry] reads [self.manager.state[index]] before
    [remove_entry] checks the bounds.  At a position at or beyond the end
    the read raises [IndexError] and nothing else happens.  At a negative
    position down to [-len] the read finds the record counted from the
    end: its descriptor file is deleted, [remove_entry] then returns
    [None], the list stays as it was, and the success message is shown. *)
Theorem delete_entry_unchecked_lookup `{codec : JsonCodec}
    (m : machine) (items : list json) (index : Z) :
  state m = JArr items ->
  (Z.of_nat (length items) <= index ->
   forall confirmed,
     Application.delete_entry (Some index) confirmed m = (Raise IndexError, m))
  /\ (- Z.of_nat (length items) <= index < 0 ->
      forall (entry : json) (p text : string),
        items !! Z.to_nat (index + Z.of_nat (length items)) = Some entry ->
        Py.get entry "desktop_file" JNull = Ret (JStr p) ->
        files m !! p = Some text ->
        hd Pass (oracle m) = Pass ->
        forallb is_dict items = true ->
        let act := Application.delete_entry (Some index) true in
        let removed := after (OS.remove (JStr p)) m in
        Py.getitem (JArr items) index = Ret entry
        /\ result act m = Ret tt
        /\ files (after act m) !! p = None
        /\ DesktopEntryManager.remove_entry index removed = (Ret JNull, removed)
        /\ state (after act m) = JArr items
        /\ last (trace (after act m))
           = Some (EvShowInfo "Desktop entry deleted successfully.")).
Proof.
  intros Hstate. split.
  - intros Hbeyond confirmed. unfold Application.delete_entry.
    rewrite (bind_ret_run (gets state) _ m m (state m) eq_refl), Hstate.
    apply bind_raise_run. unfold lift. cbn [Py.getitem].
    now rewrite list_getitem_beyond.
  - intros Hneg entry p text Hentry Hfile Hthere Hpass Hdicts act removed.
    assert (Hitem : Py.getitem (JArr items) index = Ret entry)
      by (apply list_getitem_back; assumption).
    assert (Hrun : act m = _) by
      (apply (delete_entry_resolved m (JArr items) entry (JStr p) index Hstate Hitem Hfile)).
    assert (Hbody : (there ← OS.path_exists (JStr p);
                     if there : bool then OS.remove (JStr p) else mret tt) m
                    = (Ret tt, removed)
                    /\ state removed = JArr items
                    /\ files removed !! p = None).
    { subst removed. unfold after. rewrite <- Hstate.
      destruct m as [fs md fd o t st tr]. cbn [files oracle state] in *.
      unfold_os; unfold_monad. cbn. rewrite Hthere.
      rewrite bool_decide_eq_true_2 by eauto. cbn. rewrite Hpass, Hthere. cbn.
      repeat split. apply lookup_delete_eq. }
    destruct Hbody as (Hbody & Hst & Hgone).
    assert (Hremove : DesktopEntryManager.remove_entry index removed
                      = (Ret JNull, removed))
      by (apply (remove_entry_out_of_range removed items index Hst); lia).
    rewrite (try_or_return_ret _ _ _ _ _ _ Hbody) in Hrun.
    rewrite (bind_ret_run _ _ _ _ _ Hremove) in Hrun.
    rewrite (bind_ret_run _ _ _ _ _ (refresh_list_dicts removed items Hst Hdicts))
      in Hrun.
    unfold result, after at 1 2 3. rewrite Hrun.
    unfold messagebox.showinfo, log, modify.
    cbn [fst snd trace with_trace with_tree state files].
    rewrite last_snoc. repeat split; assumption.
Qed.

(** ** Sequences of registry calls *)

Section RegistryFacts.
Context `{codec : JsonCodec}.
Import Registry.

Lemma saved_trace (m : machine) :
  trace (saved m) = (trace m ++ save_events m)%list.
Proof.
  unfold saved, save_events. destruct (hd Pass (oracle m)); cbn;
    rewrite <- ?app_assoc; reflexivity.
Qed.


Lemma add_entry_list (m : machine) (items : list json) (entry : json) :
  state m = JArr items ->
  DesktopEntryManager.add_entry entry m
  = (Ret tt, saved (with_state (JArr (items ++ [entry])) m)).
Proof.
  intros Hstate. unfold DesktopEntryManager.add_entry.
  unfold DesktopEntryManager.state_append, DesktopEntryManager.set_state.
  unfold_monad. cbn -[saved]. rewrite Hstate. cbn -[saved].
  now rewrite save_state_eq.
Qed.






Lemma forallb_lookup {A} (f : A -> bool) (l : list A) (i : nat) (x : A) :
  forallb f l = true -> l !! i = Some x -> f x = true.
Proof.
  revert i. induction l as [|y l IH]; intros i H Hx; [discriminate|].
  cbn in H. apply andb_true_iff in H as [Hy H].
  destruct i as [|i]; [injection Hx as <-; exact Hy | exact (IH i H Hx)].
Qed.


End RegistryFacts.


(** ** Descriptor file names *)

Lemma str_of_int_inj (a b : Z) : Py.str_of_int a = Py.str_of_int b -> a = b.
Proof.
  unfold Py.str_of_int. intros H.
  assert (Hi : forall z, NilZero.int_of_string (NilZero.string_of_int (Z.to_int z))
                         = Some (Z.to_int z)).
  { intros z. apply NilZero.isi; destruct z; cbn; try discriminate;
      intros [= E]; now apply (DecimalPos.Unsigned.to_uint_nonnil p). }
  apply DecimalZ.to_int_inj.
  pose proof (Hi a) as Ha. rewrite H, Hi in Ha. congruence.
Qed.

Lemma append_inj_r (a b c : string) : a ++ c = b ++ c -> a = b.
Proof.
  revert b. induction a as [|x a IH]; intros [|y b] H; try reflexivity.
  - apply (f_equal String.length) in H. cbn in H. rewrite length_append in H. lia.
  - apply (f_equal String.length) in H. cbn in H. rewrite length_append in H. lia.
  - cbn in H. injection H as -> H. f_equal. now apply IH.
Qed.

(** C6, at two registrations of [Sample] within one second.  Both
    descriptors get the name [Sample_1700000000.desktop]: one file is
    written twice and the registry ends with two records that name it. *)
Theorem same_second_same_descriptor :
  let create := Application.create_desktop_entry (codec := PyJson.codec) "/home/u" in
  let m := after (create (sample 1700000000);; create (sample 1700000000)) fresh in
  Application.desktop_filename "Sample" 1700000000 = "Sample_1700000000.desktop"
  /\ state m = JArr [sample_record 1700000000; sample_record 1700000000]
  /\ List.filter is_write (trace m)
     = [ EvWrite "/home/u/.local/share/applications/Sample_1700000000.desktop" true;
         EvWrite STATE_FILE true;
         EvWrite "/home/u/.local/share/applications/Sample_1700000000.desktop" true;
         EvWrite STATE_FILE true ].
Proof. vm_compute. repeat split. Qed.

(** ** Further properties of the code *)

(** X1. [save_state] never raises and never changes the list in memory.
    When its write passes, the backing file holds the document for the
    list; when the write is refused the files are what they were; and
    whenever it fails the error is printed and nothing else is done, so
    that memory is ahead of the disk. *)
Theorem save_state_best_effort `{codec : JsonCodec} (m : machine) :
  result DesktopEntryManager.save_state m = Ret tt
  /\ state (after DesktopEntryManager.save_state m) = state m
  /\ (hd Pass (oracle m) = Pass ->
      files (after DesktopEntryManager.save_state m) !! STATE_FILE
      = Some (json_dumps (state m)))
  /\ (hd Pass (oracle m) = Deny ->
      files (after DesktopEntryManager.save_state m) = files m)
  /\ (hd Pass (oracle m) <> Pass ->
      events_of DesktopEntryManager.save_state m
      = [EvWrite STATE_FILE false; EvPrint "Error saving state" (Some OSError)]).
Proof.
  unfold events_of, result, after. rewrite save_state_eq. cbn [fst snd].
  split; [reflexivity|]. split; [apply saved_state|].
  rewrite saved_trace, drop_own_length. unfold saved, save_events.
  destruct (hd Pass (oracle m)); cbn [files with_trace with_files with_oracle].
  - split; [intros _; apply lookup_insert_eq|].
    split; [discriminate | intros H; contradiction].
  - split; [discriminate|]. split; reflexivity.
  - split; [discriminate|]. split; [discriminate | reflexivity].
Qed.

(** X2. [add_entry] on a list puts the record at the end and saves; on
    anything that is not a list it raises [AttributeError] and does
    nothing else. *)
Theorem add_entry_appends_and_saves `{codec : JsonCodec}
    (m : machine) (entry : json) :
  (forall items,
     state m = JArr items ->
     result (DesktopEntryManager.add_entry entry) m = Ret tt
     /\ state (after (DesktopEntryManager.add_entry entry) m)
        = JArr (items ++ [entry])
     /\ after (DesktopEntryManager.add_entry entry) m
        = after DesktopEntryManager.save_state
            (with_state (JArr (items ++ [entry])) m))
  /\ ((forall items, state m <> JArr items) ->
      DesktopEntryManager.add_entry entry m = (Raise AttributeError, m)).
Proof.
  split.
  - intros items Hstate. unfold result, after.
    rewrite (add_entry_list m items entry Hstate), save_state_eq. cbn [fst snd].
    rewrite saved_state. repeat split.
  - intros Hother. unfold DesktopEntryManager.add_entry.
    apply bind_raise_run. unfold DesktopEntryManager.state_append.
    unfold_monad. destruct (state m) eqn:E; try reflexivity.
    now destruct (Hother items).
Qed.

(** X3. Two registrations of the same name made in different seconds get
    different descriptor file names. *)
Theorem desktop_filename_distinct_seconds (name : string) (ts1 ts2 : Z) :
  ts1 <> ts2 ->
  Application.desktop_filename name ts1 <> Application.desktop_filename name ts2.
Proof.
  intros Hne H. unfold Application.desktop_filename in H.
  apply String.app_inj in H. apply (String.app_inj "_") in H.
  apply append_inj_r in H. now apply str_of_int_inj in H.
Qed.

(** X4. A creation whose write and chmod pass, on a registry of
    dictionaries: the descriptor holds the rendered document and has
    mode 0755, the record with the name, the bundle path and the
    descriptor path is the last of the list, the view shows one row per
    record, and the success message names the descriptor. *)
Theorem create_registers_descriptor `{codec : JsonCodec}
    (userhome : string) (a : Application.answers) (name : string)
    (m : machine) (items : list json) :
  Application.appimage_path a <> "" ->
  Application.app_name a = Some name ->
  name <> "" ->
  state m = JArr items ->
  forallb is_dict items = true ->
  hd Pass (oracle m) = Pass ->
  hd Pass (tl (oracle m)) = Pass ->
  let path := Application.desktop_path userhome name (Application.timestamp a) in
  let entry := Application.new_entry name (Application.appimage_path a) path in
  let m' := after (Application.create_desktop_entry userhome a) m in
  result (Application.create_desktop_entry userhome a) m = Ret tt
  /\ files m' !! path
     = Some (Application.desktop_content name (Application.appimage_path a)
               (Application.icon_path a)
               (resolved_class_id (Application.wm_class a) name))
  /\ modes m' !! path = Some 493
  /\ state m' = JArr (items ++ [entry])
  /\ tree m' = map row_of (items ++ [entry])
  /\ last (trace m') = Some (EvShowInfo ("Desktop entry created: " ++ path)).
Proof.
  intros Hpath Hname Hne Hstate Hdicts Hv1 Hv2 path entry m'.
  pose proof (desktop_path_not_state_file userhome name (Application.timestamp a))
    as Hother. fold path in Hother.
  subst m'. rewrite (create_with_name userhome a name Hpath Hname Hne).
  cbv zeta. rewrite resolve_wm_class_resolved. fold path entry.
  set (content := Application.desktop_content _ _ _ _).
  clearbody path content.
  set (m2 := with_trace ((trace m ++ [EvWrite path true]) ++ [EvChmod path 493 true])
               (with_modes (<[path := 493]> (modes m))
                  (with_oracle (tl (tl (oracle m)))
                     (with_files (<[path := content]> (files m)) m)))).
  assert (Hbody : (OS.write_file path content;; OS.chmod path 493) m = (Ret tt, m2)).
  { subst m2. destruct m as [fs md fd o t st tr]. cbn [oracle] in *.
    unfold_os; unfold_monad. cbn. rewrite Hv1. cbn.
    rewrite lookup_insert_eq, Hv2. reflexivity. }
  unfold result, after.
  rewrite (try_or_return_ret _ _ _ _ _ _ Hbody).
  assert (Hst2 : state m2 = JArr items) by exact Hstate.
  rewrite (bind_ret_run _ _ _ _ _ (add_entry_list m2 items entry Hst2)).
  set (m3 := saved (with_state (JArr (items ++ [entry])) m2)).
  assert (Hst3 : state m3 = JArr (items ++ [entry])) by apply saved_state.
  assert (Hd3 : forallb is_dict (items ++ [entry]) = true)
    by (rewrite forallb_app, Hdicts; reflexivity).
  rewrite (bind_ret_run _ _ _ _ _ (refresh_list_dicts m3 _ Hst3 Hd3)).
  unfold messagebox.showinfo, log, modify.
  cbn [fst snd files modes state tree trace with_trace with_tree].
  rewrite last_snoc, Hst3.
  assert (Hfiles : files m3 !! path = Some content).
  { pose proof (keeps_save_state path Hother (with_state (JArr (items ++ [entry])) m2))
      as Hk.
    unfold after in Hk. rewrite save_state_eq in Hk. cbn [snd] in Hk.
    subst m3. rewrite Hk. apply lookup_insert_eq. }
  assert (Hmodes : modes m3 !! path = Some 493).
  { subst m3. unfold saved.
    destruct (hd Pass (oracle (with_state (JArr (items ++ [entry])) m2)));
      apply lookup_insert_eq. }
  repeat split; assumption.
Qed.

(** X5. Without a selected row [delete_entry] only shows a warning, and
    when the user answers no to the question it changes nothing at all. *)
Theorem delete_entry_needs_selection_and_consent `{codec : JsonCodec}
    (m : machine) (items : list json) (index : Z) (entry d : json) :
  (forall confirmed,
     Application.delete_entry None confirmed m
     = (Ret tt,
        with_trace (trace m ++ [EvShowWarning "Please select an entry to delete."])
          m))
  /\ (state m = JArr items ->
      Py.getitem (JArr items) index = Ret entry ->
      Py.get entry "desktop_file" JNull = Ret d ->
      Application.delete_entry (Some index) false m = (Ret tt, m)).
Proof.
  split; [reflexivity|].
  intros Hstate Hitem Hget. unfold Application.delete_entry.
  rewrite (bind_ret_run (gets state) _ m m (state m) eq_refl), Hstate.
  unfold mbind at 1, M_bind at 1, bind at 1, lift at 1. rewrite Hitem.
  unfold mbind at 1, M_bind at 1, bind at 1, lift at 1. rewrite Hget.
  destruct entry; try discriminate Hget. reflexivity.
Qed.

(** ** What leaves the registry and the view alone *)

Section ViewFrames.
Context `{codec : JsonCodec}.

Lemma leaves_view_ret {A} (a : A) : leaves_view (mret a).
Proof. intros m. split; reflexivity. Qed.

Lemma leaves_view_raise {A} (e : exn) : leaves_view (@raise A e).
Proof. intros m. split; reflexivity. Qed.

Lemma leaves_view_lift {A} (r : res A) : leaves_view (lift r).
Proof. intros m. split; reflexivity. Qed.

Lemma leaves_view_gets {A} (f : machine -> A) : leaves_view (gets f).
Proof. intros m. split; reflexivity. Qed.

Lemma leaves_view_log (ev : event) : leaves_view (log ev).
Proof. intros m. split; reflexivity. Qed.

Lemma leaves_view_bind {A B} (c : M A) (k : A -> M B) :
leaves_view c -> (forall a, leaves_view (k a)) -> leaves_view (x ← c; k x).
Proof.
intros Hc Hk m. specialize (Hc m). unfold after in *.
unfold mbind, M_bind, bind. destruct (c m) as [[a|e] m1]; cbn in *.
- destruct Hc as [<- <-]. apply Hk.
- exact Hc.
Qed.

Lemma leaves_view_write_file (path text : string) :
leaves_view (OS.write_file path text).
Proof.
intros m. unfold after. unfold_os; unfold_monad; cbn.
destruct (hd Pass (oracle m)); split; reflexivity.
Qed.

Lemma leaves_view_chmod (path : string) (mode : Z) : leaves_view (OS.chmod path mode).
Proof.
intros m. unfold after. unfold_os; unfold_monad; cbn.
destruct (hd Pass (oracle m)), (files m !! path); split; reflexivity.
Qed.

Lemma leaves_view_path_exists (d : json) : leaves_view (OS.path_exists d).
Proof.
intros m. unfold after, OS.path_exists. unfold_monad.
destruct d; cbn; try (split; reflexivity).
destruct ((z <? -2147483648) || (2147483647 <? z)); split; reflexivity.
Qed.

Lemma leaves_view_remove (d : json) : leaves_view (OS.remove d).
Proof.
intros m. unfold after, OS.remove. unfold_monad.
destruct d; cbn; try (split; reflexivity).
destruct (hd Pass (oracle m)), (files m !! s); split; reflexivity.
Qed.

Lemma leaves_view_descriptor_write (path text : string) :
leaves_view (OS.write_file path text;; OS.chmod path 493).
Proof.
apply leaves_view_bind; [apply leaves_view_write_file|].
intros _. apply leaves_view_chmod.
Qed.

Lemma leaves_view_descriptor_removal (d : json) :
leaves_view (there ← OS.path_exists d;
             if there : bool then OS.remove d else mret tt).
Proof.
apply leaves_view_bind; [apply leaves_view_path_exists|].
intros []; [apply leaves_view_remove | apply leaves_view_ret].
Qed.

Lemma saved_with_state (m : machine) (v : json) :
state (saved (with_state v m)) = v.
Proof. now rewrite saved_state. Qed.

Lemma shows_saved (m : machine) (items : list json) :
forallb is_dict items = true ->
shows (with_tree (map row_of items) (saved (with_state (JArr items) m))) items.
Proof.
intros Hd. split; [|split; [exact Hd | reflexivity]].
cbn [state with_tree]. now rewrite saved_state.
Qed.

Lemma shows_logged (m : machine) (items : list json) (t : list event) :
shows m items -> shows (with_trace t m) items.
Proof. intros H. exact H. Qed.

End ViewFrames.

(** ** The view follows the registry *)

Lemma list_getitem_cases {A} (l : list A) (i : Z) :
  (~ (- Z.of_nat (length l) <= i < Z.of_nat (length l))
   /\ Py.list_getitem l i = Raise IndexError)
  \/ (- Z.of_nat (length l) <= i < Z.of_nat (length l)
      /\ exists (j : nat) (x : A), l !! j = Some x /\ Py.list_getitem l i = Ret x).
Proof.
  destruct (decide (- Z.of_nat (length l) <= i < Z.of_nat (length l))) as [Hin|Hout].
  - right. split; [exact Hin|].
    destruct (decide (0 <= i)) as [Hpos|Hneg].
    + destruct (l !! Z.to_nat i) as [x|] eqn:Hx.
      * exists (Z.to_nat i), x. split; [exact Hx | now apply list_getitem_front].
      * apply lookup_ge_None in Hx. lia.
    + destruct (l !! Z.to_nat (i + Z.of_nat (length l))) as [x|] eqn:Hx.
      * exists (Z.to_nat (i + Z.of_nat (length l))), x.
        split; [exact Hx | apply list_getitem_back; [lia | exact Hx]].
      * apply lookup_ge_None in Hx. lia.
  - left. split; [exact Hout|].
    destruct (decide (Z.of_nat (length l) <= i)) as [Hhi|Hlo].
    + now apply list_getitem_beyond.
    + assert (E0 : (i <? 0) = true) by (apply Z.ltb_lt; lia).
      assert (E1 : (i + Z.of_nat (length l) <? 0) = true) by (apply Z.ltb_lt; lia).
      unfold Py.list_getitem. cbv zeta. rewrite E0. rewrite E1. reflexivity.
Qed.

Section ViewFacts.
Context `{codec : JsonCodec}.

Lemma delete_entry_declined (m : machine) (items : list json) (index : Z)
  (members : list (string * json)) :
state m = JArr items ->
Py.list_getitem items index = Ret (JObj members) ->
Application.delete_entry (Some index) false m = (Ret tt, m).
Proof.
intros Hstate Hitem. unfold Application.delete_entry.
rewrite (bind_ret_run (gets state) _ m m (state m) eq_refl), Hstate.
unfold mbind at 1, M_bind at 1, bind at 1, lift at 1.
cbn [Py.getitem]. rewrite Hitem. reflexivity.
Qed.

Lemma delete_entry_out_of_reach (m : machine) (items : list json) (index : Z)
  (confirmed : bool) :
state m = JArr items ->
Py.list_getitem items index = Raise IndexError ->
Application.delete_entry (Some index) confirmed m = (Raise IndexError, m).
Proof.
intros Hstate Hitem. unfold Application.delete_entry.
rewrite (bind_ret_run (gets state) _ m m (state m) eq_refl), Hstate.
apply bind_raise_run. unfold lift. cbn [Py.getitem]. now rewrite Hitem.
Qed.

End ViewFacts.

(** X6. Whatever the dialogs answer and whatever the environment does,
    [create_desktop_entry] on a registry of dictionaries shown in the
    view returns normally, and afterwards the view again shows the
    registry, which is either the list as it was or that list with the
    new record at its end. *)
Theorem create_keeps_view `{codec : JsonCodec}
    (userhome : string) (a : Application.answers) (m : machine)
    (items : list json) :
  shows m items ->
  result (Application.create_desktop_entry userhome a) m = Ret tt
  /\ (shows (after (Application.create_desktop_entry userhome a) m) items
      \/ shows (after (Application.create_desktop_entry userhome a) m)
           (items ++ [created_record userhome a])).
Proof.
  intros (Hstate & Hdicts & Htree).
  unfold result, after, created_record, Application.create_desktop_entry.
  destruct (String.eqb (Application.appimage_path a) "");
    [split; [reflexivity | left; repeat split; assumption]|].
  destruct (Py.falsy (Application.app_name a)) eqn:Hname;
    [split; [reflexivity | left; repeat split; assumption]|].
  destruct (Application.app_name a) as [name|]; [|discriminate Hname].
  change (default "" (Some name)) with name. cbv zeta.
  set (path := Application.desktop_path userhome name (Application.timestamp a)).
  set (content := Application.desktop_content _ _ _ _).
  set (entry := Application.new_entry _ _ _).
  destruct (leaves_view_descriptor_write path content m) as [Hs Ht].
  unfold after in Hs, Ht.
  destruct ((OS.write_file path content;; OS.chmod path 493) m) as [[[]|e] m1] eqn:Hbody;
    cbn [snd] in Hs, Ht.
  - rewrite (try_or_return_ret _ _ _ _ _ _ Hbody).
    assert (Hst1 : state m1 = JArr items) by congruence.
    rewrite (bind_ret_run _ _ _ _ _ (add_entry_list m1 items entry Hst1)).
    assert (Hd : forallb is_dict (items ++ [entry]) = true)
      by (rewrite forallb_app, Hdicts; reflexivity).
    rewrite (bind_ret_run _ _ _ _ _
               (refresh_list_dicts _ (items ++ [entry]) (saved_with_state _ _) Hd)).
    split; [reflexivity|]. right. now apply shows_saved.
  - rewrite (try_or_return_raise _ _ _ _ _ _ Hbody).
    split; [reflexivity|]. left. repeat split; cbn; congruence.
Qed.

(** X7. [delete_entry] on a registry of dictionaries shown in the view,
    for any selection, answer and environment: it raises only when the
    selected position is outside [-len, len), then it is [IndexError] and
    nothing has happened; otherwise it returns normally and the view
    again shows the registry, which is the list as it was or, for a
    confirmed deletion at a position in [0, len), the list without the
    record at that position. *)
Theorem delete_keeps_view `{codec : JsonCodec}
    (selected : option Z) (confirmed : bool) (m : machine) (items : list json) :
  shows m items ->
  let act := Application.delete_entry selected confirmed in
  (result act m = Ret tt
   /\ (shows (after act m) items
       \/ exists index,
            selected = Some index /\ confirmed = true
            /\ 0 <= index < Z.of_nat (length items)
            /\ shows (after act m) (delete (Z.to_nat index) items)))
  \/ (exists index,
        selected = Some index
        /\ ~ (- Z.of_nat (length items) <= index < Z.of_nat (length items))
        /\ act m = (Raise IndexError, m)).
Proof.
  intros (Hstate & Hdicts & Htree) act. subst act.
  destruct selected as [index|].
  2:{ left. split; [reflexivity|]. left. repeat split; assumption. }
  destruct (list_getitem_cases items index)
    as [[Hout Hitem] | [Hin (j & entry & Hj & Hitem)]].
  { right. exists index. split; [reflexivity|]. split; [exact Hout|].
    now apply delete_entry_out_of_reach with (items := items). }
  left.
  pose proof (forallb_lookup is_dict items j entry Hdicts Hj) as Hdict.
  destruct entry as [| | | | |members]; try discriminate Hdict.
  destruct confirmed.
  2:{ unfold result, after.
      rewrite (delete_entry_declined m items index members Hstate Hitem).
      cbn [fst snd].
      split; [reflexivity|]. left. repeat split; assumption. }
  set (d := from_option id JNull (assoc "desktop_file" members)).
  unfold result, after.
  rewrite (delete_entry_resolved m (JArr items) (JObj members) d index Hstate
             Hitem eq_refl).
  destruct (leaves_view_descriptor_removal d m) as [Hs Ht]. unfold after in Hs, Ht.
  destruct ((there ← OS.path_exists d;
             if there : bool then OS.remove d else mret tt) m)
    as [[[]|e] m1] eqn:Hbody; cbn [snd] in Hs, Ht.
  - rewrite (try_or_return_ret _ _ _ _ _ _ Hbody).
    assert (Hst1 : state m1 = JArr items) by congruence.
    destruct (decide (0 <= index)) as [Hpos|Hneg].
    + destruct (items !! Z.to_nat index) as [entry|] eqn:Hentry.
      2:{ apply lookup_ge_None in Hentry. lia. }
      rewrite (bind_ret_run _ _ _ _ _
                 (remove_entry_in_range m1 items index entry Hst1 Hpos Hentry)).
      assert (Hd : forallb is_dict (delete (Z.to_nat index) items) = true)
        by now apply forallb_delete.
      rewrite (bind_ret_run _ _ _ _ _
                 (refresh_list_dicts _ (delete (Z.to_nat index) items)
                    (saved_with_state _ _) Hd)).
      split; [reflexivity|]. right. exists index.
      split; [reflexivity|]. split; [reflexivity|]. split; [lia|].
      now apply shows_saved.
    + rewrite (bind_ret_run _ _ _ _ _
                 (remove_entry_out_of_range m1 items index Hst1 ltac:(lia))).
      rewrite (bind_ret_run _ _ _ _ _ (refresh_list_dicts m1 items Hst1 Hdicts)).
      split; [reflexivity|]. left. repeat split; [exact Hst1 | exact Hdicts].
  - rewrite (try_or_return_raise _ _ _ _ _ _ Hbody).
    split; [reflexivity|]. left. repeat split; cbn; congruence.
Qed.

(** ** Deleting and creating, when the environment lets them *)

Section PassingRuns.
Context `{codec : JsonCodec}.

Lemma saved_oracle (m : machine) : oracle (saved m) = tl (oracle m).
Proof. unfold saved. destruct (hd Pass (oracle m)); reflexivity. Qed.

Lemma saved_files_other (m : machine) (p : string) :
p <> STATE_FILE -> files (saved m) !! p = files m !! p.
Proof.
intros Hne. unfold saved.
destruct (hd Pass (oracle m)); cbn; rewrite ?lookup_insert_ne by congruence;
  reflexivity.
Qed.

Lemma saved_modes (m : machine) : modes (saved m) = modes m.
Proof. unfold saved. destruct (hd Pass (oracle m)); reflexivity. Qed.

(** A confirmed deletion whose [os.remove] passes. *)
Lemma delete_entry_passes (m : machine) (items : list json) (index : Z)
  (entry : json) (p text : string) :
state m = JArr items ->
forallb is_dict items = true ->
0 <= index ->
items !! Z.to_nat index = Some entry ->
Py.get entry "desktop_file" JNull = Ret (JStr p) ->
files m !! p = Some text ->
hd Pass (oracle m) = Pass ->
let removed :=
  with_trace (trace m ++ [EvRemove p true])
    (with_files (delete p (files m)) (with_oracle (tl (oracle m)) m)) in
let kept := delete (Z.to_nat index) items in
let stored := saved (with_state (JArr kept) removed) in
Application.delete_entry (Some index) true m
= (Ret tt,
   with_trace (trace stored ++ [EvShowInfo "Desktop entry deleted successfully."])
     (with_tree (map row_of kept) stored)).
Proof.
intros Hstate Hdicts Hpos Hentry Hget Hfile Hpass removed kept stored.
rewrite (delete_entry_resolved m (JArr items) entry (JStr p) index Hstate
           (list_getitem_front items index entry Hpos Hentry) Hget).
assert (Hbody : (there ← OS.path_exists (JStr p);
                 if there : bool then OS.remove (JStr p) else mret tt) m
                = (Ret tt, removed)).
{ subst removed. destruct m as [fs md fd o t st tr]. cbn [files oracle] in *.
  unfold_os; unfold_monad. cbn. rewrite Hfile.
  rewrite bool_decide_eq_true_2 by eauto. cbn. now rewrite Hpass, Hfile. }
rewrite (try_or_return_ret _ _ _ _ _ _ Hbody).
rewrite (bind_ret_run _ _ _ _ _
           (remove_entry_in_range removed items index entry Hstate Hpos Hentry)).
fold kept stored.
rewrite (bind_ret_run _ _ _ _ _
           (refresh_list_dicts stored kept (saved_with_state _ _)
              (forallb_delete _ _ _ Hdicts))).
reflexivity.
Qed.

(** A creation whose write and chmod pass. *)
Lemma create_passes (userhome : string) (a : Application.answers) (name : string)
  (m : machine) (items : list json) :
Application.appimage_path a <> "" ->
Application.app_name a = Some name ->
name <> "" ->
state m = JArr items ->
forallb is_dict items = true ->
hd Pass (oracle m) = Pass ->
hd Pass (tl (oracle m)) = Pass ->
let path := Application.desktop_path userhome name (Application.timestamp a) in
let content :=
  Application.desktop_content name (Application.appimage_path a)
    (Application.icon_path a)
    (Application.resolve_wm_class (Application.wm_class a) name) in
let entry := Application.new_entry name (Application.appimage_path a) path in
let written :=
  with_trace ((trace m ++ [EvWrite path true]) ++ [EvChmod path 493 true])
    (with_modes (<[path := 493]> (modes m))
       (with_oracle (tl (tl (oracle m)))
          (with_files (<[path := content]> (files m)) m))) in
let stored := saved (with_state (JArr (items ++ [entry])) written) in
Application.create_desktop_entry userhome a m
= (Ret tt,
   with_trace (trace stored ++ [EvShowInfo ("Desktop entry created: " ++ path)])
     (with_tree (map row_of (items ++ [entry])) stored)).
Proof.
intros Hpath Hname Hne Hstate Hdicts Hv1 Hv2 path content entry written stored.
rewrite (create_with_name userhome a name Hpath Hname Hne). cbv zeta.
fold path content entry.
assert (Hbody : (OS.write_file path content;; OS.chmod path 493) m
                = (Ret tt, written)).
{ subst written. clearbody path content. destruct m as [fs md fd o t st tr].
  cbn [oracle] in *. unfold_os; unfold_monad. cbn. rewrite Hv1. cbn.
  rewrite lookup_insert_eq, Hv2. reflexivity. }
rewrite (try_or_return_ret _ _ _ _ _ _ Hbody).
rewrite (bind_ret_run _ _ _ _ _ (add_entry_list written items entry Hstate)).
fold stored.
assert (Hd : forallb is_dict (items ++ [entry]) = true)
  by (rewrite forallb_app, Hdicts; reflexivity).
rewrite (bind_ret_run _ _ _ _ _
           (refresh_list_dicts stored (items ++ [entry]) (saved_with_state _ _) Hd)).
reflexivity.
Qed.

End PassingRuns.

(** X8. A confirmed deletion at a position of the list whose record
    names a descriptor file that is there, when [os.remove] passes: the
    file is removed first, then the record is taken out of the list and
    the registry is saved, the view shows the remaining records and the
    success message is the last thing that happens. *)
Theorem delete_entry_removes_file_and_record `{codec : JsonCodec}
    (m : machine) (items : list json) (index : Z) (entry : json) (p text : string) :
  state m = JArr items ->
  forallb is_dict items = true ->
  0 <= index ->
  items !! Z.to_nat index = Some entry ->
  Py.get entry "desktop_file" JNull = Ret (JStr p) ->
  files m !! p = Some text ->
  p <> STATE_FILE ->
  hd Pass (oracle m) = Pass ->
  let act := Application.delete_entry (Some index) true in
  result act m = Ret tt
  /\ files (after act m) !! p = None
  /\ state (after act m) = JArr (delete (Z.to_nat index) items)
  /\ tree (after act m) = map row_of (delete (Z.to_nat index) items)
  /\ (exists ok rest,
        events_of act m = EvRemove p true :: EvWrite STATE_FILE ok :: rest)
  /\ last (trace (after act m))
     = Some (EvShowInfo "Desktop entry deleted successfully.").
Proof.
  intros Hstate Hdicts Hpos Hentry Hget Hfile Hother Hpass act. subst act.
  unfold events_of, result, after.
  rewrite (delete_entry_passes m items index entry p text Hstate Hdicts Hpos
             Hentry Hget Hfile Hpass).
  cbv zeta. cbn [fst snd files state tree trace with_trace with_tree].
  rewrite saved_with_state, last_snoc, (saved_files_other _ p Hother).
  split; [reflexivity|]. split; [apply lookup_delete_eq|].
  split; [reflexivity|]. split; [reflexivity|]. split; [|reflexivity].
  match goal with
  | |- context [saved ?x] => destruct (saved_events x) as (ok & rest & Ht)
  end.
  exists ok, (rest ++ [EvShowInfo "Desktop entry deleted successfully."])%list.
  rewrite Ht. cbn [trace with_state with_trace].
  rewrite <- !app_assoc. apply drop_own_length.
Qed.

(** X9. A record without a [desktop_file] key cannot be deleted: the
    confirmed deletion hands [None] to [os.path.exists], the [TypeError]
    is shown as a failure to delete the file, and the registry and the
    files are left as they were. *)
Theorem delete_entry_without_descriptor_path `{codec : JsonCodec}
    (m : machine) (items : list json) (index : Z)
    (members : list (string * json)) :
  state m = JArr items ->
  Py.list_getitem items index = Ret (JObj members) ->
  assoc "desktop_file" members = None ->
  Application.delete_entry (Some index) true m
  = (Ret tt,
     with_trace
       (trace m ++ [EvShowError "Failed to delete desktop entry file"
                      (Some TypeError)]) m).
Proof.
  intros Hstate Hitem Hkey.
  rewrite (delete_entry_resolved m (JArr items) (JObj members) JNull index Hstate
             Hitem).
  - reflexivity.
  - cbn [Py.get]. now rewrite Hkey.
Qed.

(** X10. Creating a registration and then deleting the last row undoes
    the creation: when the descriptor's write, chmod and removal pass,
    the registry is the list it was before, the view shows it, and the
    descriptor file is gone. *)
Theorem create_then_delete_restores_registry `{codec : JsonCodec}
    (userhome : string) (a : Application.answers) (name : string)
    (m : machine) (items : list json) (save : verdict) (later : list verdict) :
  Application.appimage_path a <> "" ->
  Application.app_name a = Some name ->
  name <> "" ->
  state m = JArr items ->
  forallb is_dict items = true ->
  oracle m = Pass :: Pass :: save :: Pass :: later ->
  let path := Application.desktop_path userhome name (Application.timestamp a) in
  let create := Application.create_desktop_entry userhome a in
  let delete_last :=
    Application.delete_entry (Some (Z.of_nat (length items))) true in
  result create m = Ret tt
  /\ result delete_last (after create m) = Ret tt
  /\ state (after delete_last (after create m)) = JArr items
  /\ tree (after delete_last (after create m)) = map row_of items
  /\ files (after delete_last (after create m)) !! path = None.
Proof.
  intros Hpath Hname Hne Hstate Hdicts Horacle path create delete_last.
  pose proof (desktop_path_not_state_file userhome name (Application.timestamp a))
    as Hother. fold path in Hother.
  assert (Hcreate := create_passes userhome a name m items Hpath Hname Hne Hstate
                       Hdicts).
  rewrite Horacle in Hcreate. specialize (Hcreate eq_refl eq_refl).
  cbv zeta in Hcreate. fold path in Hcreate.
  set (content := Application.desktop_content _ _ _ _) in Hcreate.
  set (entry := Application.new_entry _ _ _) in Hcreate.
  subst create delete_last. unfold result, after. rewrite Hcreate. cbn [fst snd].
  match goal with
  | |- context [Application.delete_entry _ _ ?x] => set (m1 := x)
  end.
  assert (Hst1 : state m1 = JArr (items ++ [entry]))
    by (subst m1; cbn [state with_trace with_tree]; apply saved_with_state).
  assert (Hd1 : forallb is_dict (items ++ [entry]) = true)
    by (rewrite forallb_app, Hdicts; reflexivity).
  assert (Hlast : ((items ++ [entry])%list) !! Z.to_nat (Z.of_nat (length items))
                  = Some entry)
    by (rewrite Nat2Z.id; now apply list_lookup_middle).
  assert (Hfile1 : files m1 !! path = Some content).
  { subst m1. cbn [files with_trace with_tree].
    rewrite (saved_files_other _ path Hother). apply lookup_insert_eq. }
  assert (Hpass1 : hd Pass (oracle m1) = Pass).
  { subst m1. cbn [oracle with_trace with_tree]. rewrite saved_oracle. reflexivity. }
  rewrite (delete_entry_passes m1 (items ++ [entry]) (Z.of_nat (length items))
             entry path content Hst1 Hd1 (Nat2Z.is_nonneg _) Hlast eq_refl
             Hfile1 Hpass1).
  cbv zeta. cbn [fst snd files state tree with_trace with_tree].
  rewrite saved_with_state, (saved_files_other _ path Hother), Nat2Z.id.
  rewrite (delete_middle items [] entry), app_nil_r.
  repeat split. apply lookup_delete_eq.
Qed.

(** X11. [add_entry] followed by [remove_entry] at the position the
    list had as its length gives the record back and leaves the list as
    it was before the two calls. *)
Theorem add_then_remove_last `{codec : JsonCodec}
    (m : machine) (items : list json) (entry : json) :
  state m = JArr items ->
  let added := after (DesktopEntryManager.add_entry entry) m in
  let remove_last := DesktopEntryManager.remove_entry (Z.of_nat (length items)) in
  result remove_last added = Ret entry
  /\ state (after remove_last added) = JArr items.
Proof.
  intros Hstate added remove_last. subst added remove_last.
  unfold result, after. rewrite (add_entry_list m items entry Hstate). cbn [snd].
  rewrite (remove_entry_in_range _ (items ++ [entry]) (Z.of_nat (length items)) entry
             (saved_with_state _ _) (Nat2Z.is_nonneg _)).
  - cbn [fst snd]. rewrite saved_with_state, Nat2Z.id.
    rewrite (delete_middle items [] entry), app_nil_r. split; reflexivity.
  - rewrite Nat2Z.id. now apply list_lookup_middle.
Qed.

(** ** Which files an operation can change *)

Section FileFrames.
Context `{codec : JsonCodec}.
Variable p : string.

Lemma keeps_modify_memory (f : machine -> machine) :
(forall m, files (f m) = files m) -> keeps p (modify f).
Proof. intros Hf m. unfold after, modify. cbn. now rewrite Hf. Qed.

Lemma keeps_set_state (v : json) : keeps p (DesktopEntryManager.set_state v).
Proof. now apply keeps_modify_memory. Qed.

Lemma keeps_path_exists (d : json) : keeps p (OS.path_exists d).
Proof.
intros m. unfold after, OS.path_exists. unfold_monad.
destruct d; cbn; try reflexivity.
destruct ((z <? -2147483648) || (2147483647 <? z)); reflexivity.
Qed.

Lemma keeps_read_file (q : string) : keeps p (OS.read_file q).
Proof.
intros m. unfold after. unfold_os; unfold_monad; cbn.
destruct (hd Pass (oracle m)), (files m !! q); reflexivity.
Qed.

Lemma keeps_remove (d : json) : d <> JStr p -> keeps p (OS.remove d).
Proof.
intros Hne m. unfold after, OS.remove. unfold_monad.
destruct d; cbn; try reflexivity.
destruct (hd Pass (oracle m)), (files m !! s); cbn; try reflexivity.
apply lookup_delete_ne. congruence.
Qed.

Lemma keeps_load_state : keeps p DesktopEntryManager.load_state.
Proof.
apply keeps_bind; [apply keeps_path_exists | intros there].
destruct there; [|apply keeps_set_state].
apply keeps_try_except.
- apply keeps_bind; [|intros v; apply keeps_set_state].
  apply keeps_bind; [apply keeps_read_file | intros text].
  destruct (json_loads text); [apply keeps_ret | apply keeps_raise].
- intros e. apply keeps_bind; [apply keeps_log | intros _; apply keeps_set_state].
Qed.

Lemma keeps_manager_init : keeps p DesktopEntryManager.init.
Proof.
apply keeps_bind; [apply keeps_set_state | intros _; apply keeps_load_state].
Qed.

Lemma keeps_state_pop (index : Z) : keeps p (DesktopEntryManager.state_pop index).
Proof.
apply keeps_bind; [apply keeps_gets | intros v].
destruct v; try apply keeps_raise.
destruct (items !! Z.to_nat index); [|apply keeps_raise].
apply keeps_bind; [apply keeps_set_state | intros _; apply keeps_ret].
Qed.

Lemma keeps_remove_entry (index : Z) :
p <> STATE_FILE -> keeps p (DesktopEntryManager.remove_entry index).
Proof.
intros Hne. unfold DesktopEntryManager.remove_entry.
destruct (0 <=? index); [|apply keeps_ret].
apply keeps_bind; [apply keeps_gets | intros v].
apply keeps_bind; [apply keeps_lift | intros n].
destruct (index <? n); [|apply keeps_ret].
apply keeps_bind; [apply keeps_state_pop | intros entry].
apply keeps_bind; [now apply keeps_save_state | intros _; apply keeps_ret].
Qed.

End FileFrames.

(** X12. Loading changes no file at all, neither [load_state] nor the
    manager's [__init__]; saving, [add_entry] and [remove_entry] change
    at most the backing document. *)
Theorem manager_changes_only_state_file `{codec : JsonCodec}
    (p : string) (entry : json) (index : Z) :
  (keeps p DesktopEntryManager.load_state /\ keeps p DesktopEntryManager.init)
  /\ (p <> STATE_FILE ->
      keeps p DesktopEntryManager.save_state
      /\ keeps p (DesktopEntryManager.add_entry entry)
      /\ keeps p (DesktopEntryManager.remove_entry index)).
Proof.
  split; [split; [apply keeps_load_state | apply keeps_manager_init]|].
  intros Hne. split; [now apply keeps_save_state|].
  split; [now apply keeps_add_entry | now apply keeps_remove_entry].
Qed.

(** X13. [create_desktop_entry] changes at most two files, the
    descriptor it names after the application and the second, and the
    backing document; every other file is as it was, whatever the
    answers and the environment. *)
Theorem create_changes_only_its_files `{codec : JsonCodec}
    (userhome : string) (a : Application.answers) (p : string) :
  p <> STATE_FILE ->
  p <> Application.desktop_path userhome (default "" (Application.app_name a))
         (Application.timestamp a) ->
  keeps p (Application.create_desktop_entry userhome a).
Proof.
  intros Hstate Hpath. unfold Application.create_desktop_entry.
  destruct (String.eqb (Application.appimage_path a) ""); [apply keeps_ret|].
  destruct (Py.falsy (Application.app_name a)); [apply keeps_log|].
  cbv zeta. apply keeps_try_or_return.
  - apply keeps_bind; [now apply keeps_write_file | intros _; apply keeps_chmod].
  - intros e. apply keeps_log.
  - apply keeps_bind; [now apply keeps_add_entry | intros _].
    apply keeps_bind; [apply keeps_refresh_list | intros _; apply keeps_log].
Qed.

(** X14. [delete_entry] changes at most the file the selected record
    names under [desktop_file] and the backing document; every other
    file is as it was, whatever the selection, the answer and the
    environment. *)
Theorem delete_changes_only_its_files `{codec : JsonCodec}
    (selected : option Z) (confirmed : bool) (p : string) (m : machine) :
  p <> STATE_FILE ->
  (forall index entry,
     selected = Some index ->
     Py.getitem (state m) index = Ret entry ->
     Py.get entry "desktop_file" JNull <> Ret (JStr p)) ->
  files (after (Application.delete_entry selected confirmed) m) !! p = files m !! p.
Proof.
  intros Hstate Hother. destruct selected as [index|]; [|reflexivity].
  unfold Application.delete_entry, after.
  unfold mbind at 1, M_bind at 1, bind at 1, gets at 1.
  unfold mbind at 1, M_bind at 1, bind at 1, lift at 1.
  destruct (Py.getitem (state m) index) as [entry|e] eqn:Hitem; [|reflexivity].
  specialize (Hother index entry eq_refl Hitem).
  unfold mbind at 1, M_bind at 1, bind at 1, lift at 1.
  destruct (Py.get entry "desktop_file" JNull) as [d|e] eqn:Hget; [|reflexivity].
  unfold mbind at 1, M_bind at 1, bind at 1, lift at 1.
  destruct (Py.get entry "app_name" (JStr "Unnamed")); [|reflexivity].
  destruct confirmed; [|reflexivity].
  assert (Hd : d <> JStr p) by congruence.
  refine (keeps_try_or_return p _ _ _ _ _ _ m).
  - apply keeps_bind; [apply keeps_path_exists | intros there].
    destruct there; [now apply keeps_remove | apply keeps_ret].
  - intros e. apply keeps_log.
  - apply keeps_bind; [now apply keeps_remove_entry | intros _].
    apply keeps_bind; [apply keeps_refresh_list | intros _; apply keeps_log].
Qed.

(** ** Where the descriptor goes *)

Lemma last_character_skip (c : ascii) (s : string) :
  s <> "" ->
  String.substring (String.length (String c s) - 1) 1 (String c s)
  = String.substring (String.length s - 1) 1 s.
Proof.
  intros Hne. destruct s as [|c' s']; [congruence|].
  cbn [String.length]. rewrite !Nat.sub_succ, !Nat.sub_0_r. reflexivity.
Qed.

Lemma entry_dir_last_character (userhome : string) :
  let dir := Application.DESKTOP_ENTRY_DIR userhome in
  dir <> "" /\ String.substring (String.length dir - 1) 1 dir = "s".
Proof.
  unfold Application.DESKTOP_ENTRY_DIR.
  induction userhome as [|c u [IHne IH]]; [split; [discriminate | reflexivity]|].
  split; [discriminate|].
  change (String c u ++ "/.local/share/applications")
    with (String c (u ++ "/.local/share/applications")).
  now rewrite last_character_skip.
Qed.

Lemma prefix_empty (s : string) : String.prefix "" s = true.
Proof. now destruct s. Qed.

Lemma desktop_filename_absolute (name : string) (ts : Z) :
  String.prefix "/" (Application.desktop_filename name ts) = String.prefix "/" name.
Proof.
  unfold Application.desktop_filename. destruct name as [|c name]; [reflexivity|].
  cbn [Py.replace]. 
  change (String ?x ?s ++ ?t) with (String x (s ++ t)).
  cbn [String.prefix].
  destruct (Ascii.eqb c " ") eqn:Hc.
  - apply Ascii.eqb_eq in Hc. subst c. reflexivity.
  - destruct (ascii_dec "/" c); [|reflexivity]. now rewrite !prefix_empty.
Qed.

(** X15. The descriptor's path is the applications directory under the
    user's home, a slash and the file name, unless the application name
    begins with a slash: then [os.path.join] drops the directory and the
    path is the file name alone, outside the applications directory. *)
Theorem desktop_path_cases (userhome name : string) (ts : Z) :
  Application.desktop_path userhome name ts
  = if String.prefix "/" name then Application.desktop_filename name ts
    else userhome ++ "/.local/share/applications" ++ "/"
         ++ Application.desktop_filename name ts.
Proof.
  unfold Application.desktop_path, OS.path_join.
  rewrite desktop_filename_absolute.
  destruct (String.prefix "/" name); [reflexivity|].
  destruct (entry_dir_last_character userhome) as [Hne Hlast].
  cbv zeta in Hne, Hlast. apply String.eqb_neq in Hne. rewrite Hne, Hlast.
  cbn [String.eqb Ascii.eqb Bool.eqb]. unfold Application.DESKTOP_ENTRY_DIR.
  now rewrite append_assoc.
Qed.

Lemma occurs_append (c : ascii) (a b : string) :
  occurs c (a ++ b) = occurs c a || occurs c b.
Proof.
  induction a as [|x a IH]; [reflexivity|].
  change (String x a ++ b) with (String x (a ++ b)). cbn [occurs].
  now rewrite IH, orb_assoc.
Qed.

Lemma occurs_replaced (a b : ascii) (s : string) :
  a <> b -> occurs a (Py.replace a b s) = false.
Proof.
  intros Hne. induction s as [|x s IH]; [reflexivity|].
  cbn [Py.replace occurs]. rewrite IH, orb_false_r.
  destruct (Ascii.eqb x a) eqn:Hx; [|exact Hx].
  apply Ascii.eqb_neq. congruence.
Qed.

Lemma occurs_plain_digits (d : Decimal.uint) :
  occurs " " (NilEmpty.string_of_uint d) = false.
Proof. induction d; cbn [NilEmpty.string_of_uint occurs]; try rewrite IHd; reflexivity. Qed.

Lemma occurs_digits (d : Decimal.uint) : occurs " " (NilZero.string_of_uint d) = false.
Proof. destruct d; try reflexivity; apply occurs_plain_digits. Qed.

Lemma occurs_str_of_int (n : Z) : occurs " " (Py.str_of_int n) = false.
Proof.
  unfold Py.str_of_int, NilZero.string_of_int.
  destruct (Z.to_int n); [|cbn [occurs]]; now rewrite occurs_digits.
Qed.

(** X16. The descriptor's file name has no space in it, whatever the
    application name: every space of the name has become an underscore,
    and nothing the code adds brings one in. *)
Theorem desktop_filename_without_space (name : string) (ts : Z) :
  occurs " " (Application.desktop_filename name ts) = false.
Proof.
  unfold Application.desktop_filename.
  rewrite !occurs_append, occurs_replaced by discriminate.
  now rewrite occurs_str_of_int.
Qed.

(** ** Filling the list view *)

Lemma forallb_first_failure {A} (f : A -> bool) (l : list A) :
  forallb f l = false ->
  exists pre bad post,
    l = (pre ++ bad :: post)%list /\ forallb f pre = true /\ f bad = false.
Proof.
  induction l as [|x l IH]; [discriminate|]. cbn [forallb]. intros H.
  destruct (f x) eqn:Hx.
  - destruct (IH H) as (pre & bad & post & -> & Hpre & Hbad).
    exists (x :: pre), bad, post. cbn [forallb]. now rewrite Hx, Hpre.
  - exists [], x, l. repeat split; assumption.
Qed.

Section ViewRows.
Context `{codec : JsonCodec}.

Lemma for_each_rows_stop (pre post : list json) (bad : json) (m : machine) :
forallb is_dict pre = true ->
is_dict bad = false ->
Application.for_each
  (fun entry =>
     name ← lift (Py.get entry "app_name" (JStr "Unnamed"));
     file ← lift (Py.get entry "desktop_file" (JStr ""));
     Application.tree_insert (name, file))
  (pre ++ bad :: post) m
= (Raise AttributeError, with_tree (tree m ++ map row_of pre) m).
Proof.
revert m. induction pre as [|entry pre IH]; intros m Hd Hbad.
- destruct bad; try discriminate Hbad; destruct m; cbn; now rewrite app_nil_r.
- cbn [forallb] in Hd. apply andb_true_iff in Hd as [He Hd].
  destruct entry; try discriminate He.
  change ((JObj members :: pre) ++ bad :: post)%list
    with (JObj members :: (pre ++ bad :: post))%list.
  cbn [Application.for_each]. unfold mbind at 1, M_bind at 1, bind at 1.
  unfold Application.tree_insert. unfold_monad. cbn -[Application.for_each].
  rewrite (IH _ Hd Hbad). cbn. now rewrite <- app_assoc.
Qed.

Lemma refresh_list_stops (m : machine) (pre post : list json) (bad : json) :
state m = JArr (pre ++ bad :: post) ->
forallb is_dict pre = true ->
is_dict bad = false ->
Application.refresh_list m = (Raise AttributeError, with_tree (map row_of pre) m).
Proof.
intros Hstate Hd Hbad. unfold Application.refresh_list.
unfold_monad. cbn -[Application.for_each]. rewrite Hstate.
cbn -[Application.for_each]. now rewrite (for_each_rows_stop _ _ _ _ Hd Hbad).
Qed.

Lemma refresh_list_other (m : machine) :
fst (Application.refresh_list m)
= match state m with
  | JArr items => if forallb is_dict items then Ret tt else Raise AttributeError
  | JObj [] | JStr EmptyString => Ret tt
  | JObj _ | JStr _ => Raise AttributeError
  | _ => Raise TypeError
  end.
Proof.
destruct (state m) as [|b|z|s|items|members] eqn:Hstate;
  try (unfold Application.refresh_list; unfold_monad; cbn; rewrite Hstate;
       reflexivity).
- unfold Application.refresh_list; unfold_monad; cbn; rewrite Hstate.
  now destruct s.
- destruct (forallb is_dict items) eqn:Hd.
  + now rewrite (refresh_list_dicts m items Hstate Hd).
  + destruct (forallb_first_failure _ _ Hd) as (pre & bad & post & -> & Hp & Hb).
    now rewrite (refresh_list_stops m pre post bad Hstate Hp Hb).
- unfold Application.refresh_list; unfold_monad; cbn; rewrite Hstate.
  now destruct members.
Qed.

(** What a passing [load_state] leaves behind. *)
Lemma load_state_passes (m : machine) (text : string) (v : json) :
files m !! STATE_FILE = Some text ->
hd Pass (oracle m) = Pass ->
json_loads text = Some v ->
DesktopEntryManager.load_state m
= (Ret tt,
   with_state v
     (with_trace (trace m ++ [EvRead STATE_FILE true])
        (with_oracle (tl (oracle m)) m))).
Proof.
intros Hfile Hv Hparse. destruct m as [fs md fd o t st tr].
cbn [files oracle] in *. mrun.
rewrite !Hfile. cbn. rewrite ?Hfile, Hv. cbn. rewrite Hparse. reflexivity.
Qed.

Lemma manager_init_passes (m : machine) (text : string) (v : json) :
files m !! STATE_FILE = Some text ->
hd Pass (oracle m) = Pass ->
json_loads text = Some v ->
DesktopEntryManager.init m
= (Ret tt,
   with_state v
     (with_trace (trace m ++ [EvRead STATE_FILE true])
        (with_oracle (tl (oracle m)) m))).
Proof.
intros Hfile Hv Hparse. unfold DesktopEntryManager.init.
unfold mbind at 1, M_bind at 1, bind at 1.
unfold DesktopEntryManager.set_state at 1, modify at 1.
now rewrite (load_state_passes (with_state (JArr []) m) text v Hfile Hv Hparse).
Qed.

End ViewRows.

(** X17. [refresh_list] on a registry that is a list: when every item
    is a dictionary the view holds one row per item, in the order of the
    list and whatever it held before; otherwise [entry.get] raises
    [AttributeError] at the first item that is not a dictionary, and the
    view is left with the rows of the items before it. *)
Theorem refresh_list_rows `{codec : JsonCodec} (m : machine) (items : list json) :
  state m = JArr items ->
  (forallb is_dict items = true
   /\ Application.refresh_list m = (Ret tt, with_tree (map row_of items) m))
  \/ (exists pre bad post,
        items = (pre ++ bad :: post)%list
        /\ forallb is_dict pre = true /\ is_dict bad = false
        /\ Application.refresh_list m
           = (Raise AttributeError, with_tree (map row_of pre) m)).
Proof.
  intros Hstate. destruct (forallb is_dict items) eqn:Hd.
  - left. split; [reflexivity|]. now apply refresh_list_dicts.
  - right. destruct (forallb_first_failure _ _ Hd) as (pre & bad & post & -> & Hp & Hb).
    exists pre, bad, post. repeat split; try assumption.
    exact (refresh_list_stops m pre post bad Hstate Hp Hb).
Qed.

(** X18. Starting on a backing document that decodes to [v]: the
    manager's [__init__] returns normally with [v] as its state, and the
    application's [__init__] then fills the view, which goes through for
    a list of dictionaries, the empty dictionary and the empty string,
    raises [AttributeError] for a list with another item, a dictionary
    with a key or a string with a character, and [TypeError] for
    [null], a truth value or a number. *)
Theorem startup_on_decoded_document `{codec : JsonCodec}
    (m : machine) (text : string) (v : json) :
  files m !! STATE_FILE = Some text ->
  hd Pass (oracle m) = Pass ->
  json_loads text = Some v ->
  result DesktopEntryManager.init m = Ret tt
  /\ state (after DesktopEntryManager.init m) = v
  /\ result Application.init m
     = match v with
       | JArr items => if forallb is_dict items then Ret tt else Raise AttributeError
       | JObj [] | JStr EmptyString => Ret tt
       | JObj _ | JStr _ => Raise AttributeError
       | _ => Raise TypeError
       end.
Proof.
  intros Hfile Hv Hparse.
  pose proof (manager_init_passes m text v Hfile Hv Hparse) as Hinit.
  unfold result, after. rewrite Hinit. cbn [fst snd].
  split; [reflexivity|]. split; [reflexivity|].
  unfold Application.init. rewrite (bind_ret_run _ _ _ _ _ Hinit).
  now rewrite refresh_list_other.
Qed.

(** X19. What one run saves the next run shows: when the registry is a
    list of well-formed dictionaries and its save passes, a new process
    on the files left behind, whose read passes, starts normally with
    that list as its registry and one row per record in its view. *)
Theorem restart_shows_saved_registry `{codec : JsonCodec} `{!JsonRoundTrip codec}
    (m : machine) (items : list json) (later : list verdict)
    (st : json) (rows : list (json * json)) :
  state m = JArr items ->
  forallb is_dict items = true ->
  wf_json (JArr items) = true ->
  oracle m = Pass :: Pass :: later ->
  let next := restarted st rows (after DesktopEntryManager.save_state m) in
  result Application.init next = Ret tt
  /\ shows (after Application.init next) items.
Proof.
  intros Hstate Hdicts Hwf Horacle next.
  assert (Hfile : files next !! STATE_FILE = Some (json_dumps (JArr items))).
  { subst next. unfold after. rewrite save_state_eq. cbn [snd].
    unfold restarted, saved. rewrite Horacle, Hstate. cbn. apply lookup_insert_eq. }
  assert (Hpass : hd Pass (oracle next) = Pass).
  { subst next. unfold after. rewrite save_state_eq. cbn [snd].
    unfold restarted. cbn [oracle with_tree with_state].
    now rewrite saved_oracle, Horacle. }
  pose proof (manager_init_passes next _ (JArr items) Hfile Hpass
                (loads_dumps _ Hwf)) as Hinit.
  unfold Application.init, result, after.
  rewrite (bind_ret_run _ _ _ _ _ Hinit).
  match goal with
  | |- context [Application.refresh_list ?x] =>
      rewrite (refresh_list_dicts x items eq_refl Hdicts)
  end.
  cbn [fst snd].
  split; [reflexivity|]. split; [reflexivity|]. split; [exact Hdicts | reflexivity].
Qed.

(** ** The theorems at work on concrete machines *)

Lemma remove_entry_in_and_out_of_range_witness :
  state two_records = JArr [first_record; second_record]
  /\ result (DesktopEntryManager.remove_entry (codec := PyJson.codec) 0) two_records
     = Ret first_record
  /\ DesktopEntryManager.remove_entry (codec := PyJson.codec) 5 two_records
     = (Ret JNull, two_records).
Proof.
  pose proof (remove_entry_in_and_out_of_range (codec := PyJson.codec)
                two_records [first_record; second_record]) as H.
  split; [reflexivity|]. split.
  - destruct (proj1 (H 0 eq_refl)) as (entry & Hentry & Hresult & _);
      [cbn; lia|].
    injection Hentry as <-. exact Hresult.
  - apply (proj2 (H 5 eq_refl)). cbn. lia.
Defined.

Lemma load_state_recovers_witness :
  (exists text, files garbled !! STATE_FILE = Some text
                /\ PyJson.loads text = None)
  /\ state (after (DesktopEntryManager.load_state (codec := PyJson.codec)) garbled)
     = JArr [].
Proof.
  assert (H : exists text, files garbled !! STATE_FILE = Some text
                           /\ PyJson.loads text = None)
    by (exists "{not json"; split; reflexivity).
  split; [exact H|].
  apply (load_state_recovers (codec := PyJson.codec) garbled).
  right. right. exact H.
Defined.

Lemma load_state_keeps_any_value_witness :
  files wrong_shape !! STATE_FILE = Some "{}"
  /\ hd Pass (oracle wrong_shape) = Pass
  /\ PyJson.loads "{}" = Some (JObj [])
  /\ state (after (DesktopEntryManager.load_state (codec := PyJson.codec)) wrong_shape)
     = JObj [].
Proof.
  split; [reflexivity|]. split; [reflexivity|]. split; [reflexivity|].
  apply (load_state_keeps_any_value (codec := PyJson.codec)
           wrong_shape "{}" (JObj []));
    reflexivity.
Defined.

Lemma create_with_empty_name_witness :
  Application.appimage_path (Application.Answers "/opt/Sample.AppImage" (Some "") None "" 0)
  <> ""
  /\ Application.create_desktop_entry (codec := PyJson.codec) "/home/u"
       (Application.Answers "/opt/Sample.AppImage" (Some "") None "" 0) fresh
     = (Ret tt,
        with_trace [EvShowError "Application name cannot be empty." None] fresh).
Proof.
  split; [discriminate|].
  apply (create_with_empty_name (codec := PyJson.codec) "/home/u"
           (Application.Answers "/opt/Sample.AppImage" (Some "") None "" 0) fresh).
  - discriminate.
  - right. reflexivity.
Defined.

Lemma create_failure_keeps_registry_witness :
  (exists e, result (OS.write_file first_descriptor
                       (Application.desktop_content "Sample" "/opt/Sample.AppImage"
                          "" "Sample"))
               (with_oracle [Deny] two_records) = Raise e)
  /\ state (after (Application.create_desktop_entry (codec := PyJson.codec) "/home/u"
                    (sample 1700000000))
             (with_oracle [Deny] two_records))
     = JArr [first_record; second_record].
Proof.
  assert (H : exists e, result (OS.write_file first_descriptor
                       (Application.desktop_content "Sample" "/opt/Sample.AppImage"
                          "" "Sample"))
               (with_oracle [Deny] two_records) = Raise e)
    by (exists OSError; reflexivity).
  split; [exact H|].
  apply (create_failure_keeps_registry (codec := PyJson.codec) "/home/u"
           (sample 1700000000) "Sample" (with_oracle [Deny] two_records)).
  - discriminate.
  - reflexivity.
  - discriminate.
  - left. exact H.
Defined.

Lemma descriptor_document_witness :
  hd Pass (oracle fresh) = Pass
  /\ files (after (Application.create_desktop_entry (codec := PyJson.codec) "/home/u"
                    (sample 1700000000)) fresh)
       !! first_descriptor
     = Some (String.concat Application.nl
               [ "[Desktop Entry]"; "Version=1.0"; "Type=Application";
                 "Name=Sample"; "Exec=" ++ Py.dq ++ "/opt/Sample.AppImage" ++ Py.dq; "Icon=";
                 "StartupWMClass=Sample"; "Terminal=false";
                 "Categories=Utility;" ]).
Proof.
  split; [reflexivity|].
  apply (descriptor_document (codec := PyJson.codec) "/home/u"
           (sample 1700000000) "Sample" fresh).
  - discriminate.
  - reflexivity.
  - discriminate.
  - reflexivity.
Defined.

Lemma delete_entry_absent_or_failing_witness :
  files two_records !! first_descriptor = None
  /\ state (after (Application.delete_entry (codec := PyJson.codec) (Some 0) true)
             two_records)
     = JArr [second_record]
  /\ files second_locked !! second_descriptor <> None
  /\ state (after (Application.delete_entry (codec := PyJson.codec) (Some 1) true)
             second_locked)
     = JArr [first_record; second_record].
Proof.
  split; [reflexivity|]. split.
  - apply (delete_entry_absent_or_failing (codec := PyJson.codec)
             two_records [first_record; second_record] 0 first_record
             first_descriptor); try reflexivity; try lia.
  - split; [discriminate|].
    apply (delete_entry_absent_or_failing (codec := PyJson.codec)
             second_locked [first_record; second_record] 1 second_record
             second_descriptor); try reflexivity; try lia.
    + discriminate.
    + exists OSError. reflexivity.
Defined.

Lemma delete_entry_unchecked_lookup_witness :
  state second_in_place = JArr [first_record; second_record]
  /\ Application.delete_entry (codec := PyJson.codec) (Some 2) true second_in_place
     = (Raise IndexError, second_in_place)
  /\ files second_in_place !! second_descriptor = Some "[Desktop Entry]"
  /\ files (after (Application.delete_entry (codec := PyJson.codec) (Some (-1)) true)
             second_in_place) !! second_descriptor = None
  /\ state (after (Application.delete_entry (codec := PyJson.codec) (Some (-1)) true)
             second_in_place)
     = JArr [first_record; second_record].
Proof.
  pose proof (delete_entry_unchecked_lookup (codec := PyJson.codec)
                second_in_place [first_record; second_record]) as H.
  split; [reflexivity|]. split.
  - apply (proj1 (H 2 eq_refl)). cbn. lia.
  - split; [reflexivity|].
    destruct (proj2 (H (-1) eq_refl) ltac:(cbn; lia) second_record
                second_descriptor "[Desktop Entry]" eq_refl eq_refl eq_refl
                eq_refl eq_refl)
      as (_ & _ & Hgone & _ & Hstate & _).
    split; [exact Hgone | exact Hstate].
Defined.


Lemma desktop_filename_distinct_seconds_witness :
  1700000000 <> 1700000060
  /\ Application.desktop_filename "Sample" 1700000000
     <> Application.desktop_filename "Sample" 1700000060.
Proof.
  split; [discriminate|].
  apply (desktop_filename_distinct_seconds "Sample" 1700000000 1700000060).
  discriminate.
Defined.

Lemma create_registers_descriptor_witness :
  state fresh = JArr []
  /\ hd Pass (oracle fresh) = Pass
  /\ hd Pass (tl (oracle fresh)) = Pass
  /\ modes (after (Application.create_desktop_entry (codec := PyJson.codec) "/home/u"
                    (sample 1700000000)) fresh) !! first_descriptor
     = Some 493
  /\ state (after (Application.create_desktop_entry (codec := PyJson.codec) "/home/u"
                    (sample 1700000000)) fresh)
     = JArr [first_record].
Proof.
  pose proof (create_registers_descriptor (codec := PyJson.codec) "/home/u"
                (sample 1700000000) "Sample" fresh []) as H.
  destruct H as (_ & _ & Hmode & Hstate & _); try reflexivity; try discriminate.
  repeat split; assumption.
Defined.

Lemma save_state_best_effort_witness :
  hd Pass (oracle two_records) = Pass
  /\ files (after (DesktopEntryManager.save_state (codec := PyJson.codec)) two_records)
       !! STATE_FILE
     = Some (PyJson.dumps (JArr [first_record; second_record]))
  /\ hd Pass (oracle second_locked) = Deny
  /\ files (after (DesktopEntryManager.save_state (codec := PyJson.codec)) second_locked)
     = files second_locked.
Proof.
  split; [reflexivity|]. split.
  - apply (save_state_best_effort (codec := PyJson.codec) two_records). reflexivity.
  - split; [reflexivity|].
    apply (save_state_best_effort (codec := PyJson.codec) second_locked). reflexivity.
Defined.

Lemma add_entry_appends_and_saves_witness :
  state two_records = JArr [first_record; second_record]
  /\ state (after (DesktopEntryManager.add_entry (codec := PyJson.codec) first_record)
             two_records)
     = JArr [first_record; second_record; first_record]
  /\ (forall items, JObj [] <> JArr items)
  /\ DesktopEntryManager.add_entry (codec := PyJson.codec) first_record
       (with_state (JObj []) fresh)
     = (Raise AttributeError, with_state (JObj []) fresh).
Proof.
  split; [reflexivity|]. split.
  - apply (proj1 (add_entry_appends_and_saves (codec := PyJson.codec)
                    two_records first_record) [first_record; second_record]).
    reflexivity.
  - split; [discriminate|].
    apply (proj2 (add_entry_appends_and_saves (codec := PyJson.codec)
                    (with_state (JObj []) fresh) first_record)).
    discriminate.
Defined.

Lemma delete_entry_needs_selection_and_consent_witness :
  state two_records = JArr [first_record; second_record]
  /\ Py.getitem (JArr [first_record; second_record]) 1 = Ret second_record
  /\ Py.get second_record "desktop_file" JNull = Ret (JStr second_descriptor)
  /\ Application.delete_entry (codec := PyJson.codec) (Some 1) false two_records
     = (Ret tt, two_records).
Proof.
  split; [reflexivity|]. split; [reflexivity|]. split; [reflexivity|].
  apply (proj2 (delete_entry_needs_selection_and_consent (codec := PyJson.codec)
                  two_records [first_record; second_record] 1 second_record
                  (JStr second_descriptor))); reflexivity.
Defined.

Lemma create_keeps_view_witness :
  shows on_screen [first_record; second_record]
  /\ result (Application.create_desktop_entry (codec := PyJson.codec) "/home/u"
               (sample 1700000120)) on_screen
     = Ret tt.
Proof.
  assert (H : shows on_screen [first_record; second_record])
    by (split; [reflexivity | split; reflexivity]).
  split; [exact H|].
  apply (create_keeps_view (codec := PyJson.codec) "/home/u" (sample 1700000120)
           on_screen [first_record; second_record] H).
Defined.

Lemma delete_keeps_view_witness :
  shows on_screen [first_record; second_record]
  /\ ((result (Application.delete_entry (codec := PyJson.codec) (Some 7) true) on_screen
       = Ret tt
       /\ (shows (after (Application.delete_entry (codec := PyJson.codec) (Some 7) true)
                    on_screen) [first_record; second_record]
           \/ exists index,
                Some 7 = Some index /\ true = true
                /\ 0 <= index < Z.of_nat (length [first_record; second_record])
                /\ shows (after (Application.delete_entry (codec := PyJson.codec)
                                   (Some 7) true) on_screen)
                     (delete (Z.to_nat index) [first_record; second_record])))
      \/ (exists index,
            Some 7 = Some index
            /\ ~ (- Z.of_nat (length [first_record; second_record]) <= index
                  < Z.of_nat (length [first_record; second_record]))
            /\ Application.delete_entry (codec := PyJson.codec) (Some 7) true on_screen
               = (Raise IndexError, on_screen))).
Proof.
  assert (H : shows on_screen [first_record; second_record])
    by (split; [reflexivity | split; reflexivity]).
  split; [exact H|].
  apply (delete_keeps_view (codec := PyJson.codec) (Some 7) true on_screen
           [first_record; second_record] H).
Defined.

Lemma delete_entry_removes_file_and_record_witness :
  files second_in_place !! second_descriptor = Some "[Desktop Entry]"
  /\ files (after (Application.delete_entry (codec := PyJson.codec) (Some 1) true)
              second_in_place) !! second_descriptor
     = None
  /\ state (after (Application.delete_entry (codec := PyJson.codec) (Some 1) true)
              second_in_place)
     = JArr [first_record].
Proof.
  split; [reflexivity|].
  destruct (delete_entry_removes_file_and_record (codec := PyJson.codec)
              second_in_place [first_record; second_record] 1 second_record
              second_descriptor "[Desktop Entry]")
    as (_ & Hfile & Hstate & _);
    try reflexivity; try discriminate; try lia.
  split; [exact Hfile | exact Hstate].
Defined.

Lemma delete_entry_without_descriptor_path_witness :
  assoc "desktop_file" [("app_name", JStr "Sample")] = None
  /\ Application.delete_entry (codec := PyJson.codec) (Some 0) true unnamed_file
     = (Ret tt,
        with_trace [EvShowError "Failed to delete desktop entry file" (Some TypeError)]
          unnamed_file).
Proof.
  split; [reflexivity|].
  apply (delete_entry_without_descriptor_path (codec := PyJson.codec) unnamed_file
           [JObj [("app_name", JStr "Sample")]] 0 [("app_name", JStr "Sample")]);
    reflexivity.
Defined.

Lemma create_then_delete_restores_registry_witness :
  oracle (with_oracle [Pass; Pass; Pass; Pass] two_records)
  = [Pass; Pass; Pass; Pass]
  /\ state (after (Application.delete_entry (codec := PyJson.codec) (Some 2) true)
              (after (Application.create_desktop_entry (codec := PyJson.codec)
                        "/home/u" (sample 1700000120))
                 (with_oracle [Pass; Pass; Pass; Pass] two_records)))
     = JArr [first_record; second_record].
Proof.
  split; [reflexivity|].
  pose proof (create_then_delete_restores_registry (codec := PyJson.codec) "/home/u"
                (sample 1700000120) "Sample"
                (with_oracle [Pass; Pass; Pass; Pass] two_records)
                [first_record; second_record] Pass []) as H.
  assert (Hpath : Application.appimage_path (sample 1700000120) <> "")
    by discriminate.
  assert (Hname : "Sample" <> "") by discriminate.
  destruct (H Hpath eq_refl Hname eq_refl eq_refl eq_refl) as (_ & _ & Hstate & _).
  exact Hstate.
Defined.

Lemma add_then_remove_last_witness :
  state two_records = JArr [first_record; second_record]
  /\ result (DesktopEntryManager.remove_entry (codec := PyJson.codec) 2)
       (after (DesktopEntryManager.add_entry (codec := PyJson.codec) first_record)
          two_records)
     = Ret first_record.
Proof.
  split; [reflexivity|].
  apply (add_then_remove_last (codec := PyJson.codec) two_records
           [first_record; second_record] first_record).
  reflexivity.
Defined.

Lemma create_changes_only_its_files_witness :
  "/etc/hosts" <> STATE_FILE
  /\ "/etc/hosts" <> Application.desktop_path "/home/u" "Sample" 1700000120
  /\ files (after (Application.create_desktop_entry (codec := PyJson.codec) "/home/u"
                     (sample 1700000120)) with_hosts) !! "/etc/hosts"
     = files with_hosts !! "/etc/hosts".
Proof.
  split; [discriminate|]. split; [vm_compute; discriminate|].
  apply (create_changes_only_its_files (codec := PyJson.codec) "/home/u"
           (sample 1700000120) "/etc/hosts").
  - discriminate.
  - vm_compute. discriminate.
Defined.

Lemma delete_changes_only_its_files_witness :
  "/etc/hosts" <> STATE_FILE
  /\ Py.get second_record "desktop_file" JNull <> Ret (JStr "/etc/hosts")
  /\ files (after (Application.delete_entry (codec := PyJson.codec) (Some 1) true)
              with_hosts) !! "/etc/hosts"
     = files with_hosts !! "/etc/hosts".
Proof.
  split; [discriminate|]. split; [vm_compute; discriminate|].
  apply (delete_changes_only_its_files (codec := PyJson.codec) (Some 1) true
           "/etc/hosts" with_hosts).
  - discriminate.
  - intros index entry Hindex Hitem. injection Hindex as <-.
    vm_compute in Hitem. injection Hitem as <-. vm_compute. discriminate.
Defined.

Lemma refresh_list_rows_witness :
  state number_inside = JArr [first_record; JInt 1; second_record]
  /\ exists pre bad post,
       [first_record; JInt 1; second_record] = (pre ++ bad :: post)%list
       /\ is_dict bad = false
       /\ Application.refresh_list number_inside
          = (Raise AttributeError, with_tree (map row_of pre) number_inside).
Proof.
  split; [reflexivity|].
  destruct (refresh_list_rows (codec := PyJson.codec) number_inside
              [first_record; JInt 1; second_record] eq_refl)
    as [[Hd _] | (pre & bad & post & Hitems & _ & Hbad & Hrun)].
  - discriminate Hd.
  - exists pre, bad, post. split; [exact Hitems | split; [exact Hbad | exact Hrun]].
Defined.

Lemma startup_on_decoded_document_witness :
  files number_document !! STATE_FILE = Some "[1]"
  /\ PyJson.loads "[1]" = Some (JArr [JInt 1])
  /\ result (DesktopEntryManager.init (codec := PyJson.codec)) number_document = Ret tt
  /\ result (Application.init (codec := PyJson.codec)) number_document
     = Raise AttributeError.
Proof.
  split; [reflexivity|]. split; [reflexivity|].
  destruct (startup_on_decoded_document (codec := PyJson.codec) number_document
              "[1]" (JArr [JInt 1]))
    as (Hmanager & _ & Happ); try reflexivity.
  split; [exact Hmanager | exact Happ].
Defined.

Lemma restart_shows_saved_registry_witness :
  wf_json (JArr [first_record; second_record]) = true
  /\ shows
       (after (Application.init (codec := PyJson.codec))
          (restarted JNull []
             (after (DesktopEntryManager.save_state (codec := PyJson.codec))
                (with_oracle [Pass; Pass] two_records))))
       [first_record; second_record].
Proof.
  split; [reflexivity|].
  apply (@restart_shows_saved_registry PyJson.codec PyJsonFacts.round_trip
           (with_oracle [Pass; Pass] two_records) [first_record; second_record]
           [] JNull []); reflexivity.
Defined.
